(** * The studio socket client (hooks/useSocketClient.ts)

    A shallow embedding of the live execution-synchronisation client: the
    module-level socket singleton, the liveness probe, the reconnect
    scheduler and the message dispatcher [handleMessage], together with the
    part of the workflow store they write to.

    Conventions of the embedding.
    - Every callback of the source runs to completion, so it is a function
      [World -> World]; the browser (socket events, timers, the clock) is the
      part of [World] the callbacks do not own.
    - A closure of the hook is applied to the [Render] it was created in:
      the values [socketStatus], [playgroundOpen], [project] and [instanceId]
      it captured.
    - JavaScript strings are modelled as [string]; [toLowerCase] is the ASCII
      one. [x?.f] on an optional value is [option].
    - [Date.now()] reads the clock of the world, which only the event loop
      advances.

    Layout: [JS], the data model, [StoreOps] (the store setters), [W]
    (field updates of the world), [Browser], [SocketClient] (the hook, the
    event loop and the observations the statements use), [Sample], then
    [Facts] (lemmas) and [Claims]. *)

From Stdlib Require Import ZArith Ascii String List Bool Lia.
From stdpp Require Import base option list gmap strings.

Local Open Scope string_scope.
Local Open Scope Z_scope.
Local Open Scope list_scope.

(** ** JavaScript string helpers *)

Module JS.

Definition lower_ascii (c : ascii) : ascii :=
  let n := nat_of_ascii c in
  if (Nat.leb 65 n && Nat.leb n 90)%bool then ascii_of_nat (n + 32)%nat
  else c.

(** [s.toLowerCase()] *)
Fixpoint toLowerCase (s : string) : string :=
  match s with
  | EmptyString => EmptyString
  | String c s' => String (lower_ascii c) (toLowerCase s')
  end.

(** [s.includes(sub)] *)
Fixpoint includes (s sub : string) : bool :=
  (String.prefix sub s
   || match s with
      | EmptyString => false
      | String _ s' => includes s' sub
      end)%bool.

(** [s.slice(0, n)] *)
Definition slice0 (n : nat) (s : string) : string := String.substring 0 n s.

(** [!!message?.toLowerCase().includes(sub)]: [undefined] is falsy. *)
Definition opt_lower_includes (message : option string) (sub : string) : bool :=
  match message with
  | Some m => includes (toLowerCase m) sub
  | None => false
  end.

End JS.

(** ** Data model (types/dsl, types/events) *)

Inductive SocketStatus :=
| disconnected
| connecting_socket
| connecting_python
| connected.

Inductive ExecutionStatus := Idle | Waiting | Running | Success | Error.

Global Instance SocketStatus_eq_dec : EqDecision SocketStatus.
Proof. solve_decision. Defined.
Global Instance ExecutionStatus_eq_dec : EqDecision ExecutionStatus.
Proof. solve_decision. Defined.

Record Timestamps := { finished_at : option Z }.

Record ExecutionState := {
  status : ExecutionStatus;
  error : option string;
  timestamps : Timestamps;
  until_node_id : option string
}.

(** Evaluation and optimization runs share one shape. *)
Record RunState := {
  run_status : ExecutionStatus;
  run_id : option string;
  progress : option Z;
  total : option Z;
  stdout : option string;
  run_error : option string
}.

Record NodeData := { execution_state : option ExecutionState }.
Record Node := { id : string; data : NodeData }.

Record WorkflowState := {
  execution : option ExecutionState;
  evaluation : option RunState;
  optimization : option RunState
}.

Record Workflow := { nodes : list Node; state : WorkflowState }.

(** [es?.status] *)
Definition status_of (es : option ExecutionState) : option ExecutionStatus :=
  status <$> es.
Definition run_status_of (rs : option RunState) : option ExecutionStatus :=
  run_status <$> rs.

(** Server -> client events, tagged by [type]; [unknown_event] stands for a
    message whose tag is none of the known ones (the [default] branch). *)
Inductive StudioServerEvent :=
| is_alive_response
| component_state_change (component_id : string)
                         (execution_state : option ExecutionState)
| execution_state_change (execution_state : option ExecutionState)
| evaluation_state_change (evaluation_state : option RunState)
| optimization_state_change (optimization_state : option RunState)
| error_event (message : option string)
| debug_event
| done_event
| unknown_event (type : string).

(** Client -> server events: the probe and the workflow-control events, whose
    payloads are opaque here. *)
Inductive StudioClientEvent :=
| is_alive
| control_event (type payload : string).

Global Instance StudioClientEvent_eq_dec : EqDecision StudioClientEvent.
Proof. solve_decision. Defined.

(** ** The workflow store (hooks/useWorkflowStore) *)

Record Store := {
  socketStatus : SocketStatus;
  workflow : Workflow;
  selectedNode : option string;
  propertiesExpanded : bool;
  openResultsPanelRequest : option string;
  playgroundOpen : bool
}.

Module StoreOps.

Definition with_workflow (wf : Workflow) (s : Store) : Store :=
  {| socketStatus := socketStatus s; workflow := wf;
     selectedNode := selectedNode s;
     propertiesExpanded := propertiesExpanded s;
     openResultsPanelRequest := openResultsPanelRequest s;
     playgroundOpen := playgroundOpen s |}.

Definition with_state (st : WorkflowState) (s : Store) : Store :=
  with_workflow {| nodes := nodes (workflow s); state := st |} s.

(** [getWorkflow()] *)
Definition getWorkflow (s : Store) : Workflow := workflow s.

(** Modelled from the spec: the store's [setSocketStatus] is not among the
    sources; "ConnectionState (single global value)" written by the
    connection manager. The source calls it with a value and, in [onopen],
    with an updater of the current value. *)
Definition setSocketStatus (v : SocketStatus) (s : Store) : Store :=
  {| socketStatus := v; workflow := workflow s;
     selectedNode := selectedNode s;
     propertiesExpanded := propertiesExpanded s;
     openResultsPanelRequest := openResultsPanelRequest s;
     playgroundOpen := playgroundOpen s |}.

(** Modelled from the spec: [setWorkflowExecutionState] is not among the
    sources; "replaces WorkflowExecutionState", "performs the write". *)
Definition setWorkflowExecutionState (es : option ExecutionState) (s : Store)
  : Store :=
  with_state {| execution := es;
                evaluation := evaluation (state (workflow s));
                optimization := optimization (state (workflow s)) |} s.

Definition has_id (i : string) (n : Node) : bool := bool_decide (id n = i).

Definition put_state (i : string) (es : option ExecutionState) (n : Node)
  : Node :=
  if has_id i n then {| id := id n; data := {| execution_state := es |} |}
  else n.

(** Modelled from the spec: [setComponentExecutionState] is not among the
    sources; "upserts ComponentExecutionState for the given id" and
    "writes for an unknown component id still store the entry ... rather
    than erroring": a node carrying the id gets the state, an unknown id
    gets an entry of its own. *)
Definition setComponentExecutionState
    (i : string) (es : option ExecutionState) (s : Store) : Store :=
  let ns := nodes (workflow s) in
  let ns' :=
    if existsb (has_id i) ns then put_state i es <$> ns
    else ns ++ [ {| id := i; data := {| execution_state := es |} |} ] in
  with_workflow {| nodes := ns'; state := state (workflow s) |} s.

(** Modelled from the spec: [setEvaluationState] is not among the sources;
    section 4.5: it "performs the write" and may not "silently fail". *)
Definition setEvaluationState (rs : option RunState) (s : Store) : Store :=
  with_state {| execution := execution (state (workflow s));
                evaluation := rs;
                optimization := optimization (state (workflow s)) |} s.

(** Modelled from the spec: [setOptimizationState] is not among the
    sources; "symmetric to evaluation, separate state slot". *)
Definition setOptimizationState (rs : option RunState) (s : Store) : Store :=
  with_state {| execution := execution (state (workflow s));
                evaluation := evaluation (state (workflow s));
                optimization := rs |} s.

(** Modelled from the spec: the UI-layer setters [setSelectedNode],
    [setPropertiesExpanded] and [setOpenResultsPanelRequest] are not among
    the sources; each records the request it is given. *)
Definition setSelectedNode (i : string) (s : Store) : Store :=
  {| socketStatus := socketStatus s; workflow := workflow s;
     selectedNode := Some i;
     propertiesExpanded := propertiesExpanded s;
     openResultsPanelRequest := openResultsPanelRequest s;
     playgroundOpen := playgroundOpen s |}.

Definition setPropertiesExpanded (b : bool) (s : Store) : Store :=
  {| socketStatus := socketStatus s; workflow := workflow s;
     selectedNode := selectedNode s;
     propertiesExpanded := b;
     openResultsPanelRequest := openResultsPanelRequest s;
     playgroundOpen := playgroundOpen s |}.

Definition setOpenResultsPanelRequest (p : string) (s : Store) : Store :=
  {| socketStatus := socketStatus s; workflow := workflow s;
     selectedNode := selectedNode s;
     propertiesExpanded := propertiesExpanded s;
     openResultsPanelRequest := Some p;
     playgroundOpen := playgroundOpen s |}.

End StoreOps.

(** ** The browser side: sockets, timers, console *)

(** What a closure of [useSocketClient] captured in the render that created
    it. [hook] names the call site (its [useRef] cell is per call site),
    [instanceId] is the value of [instances] right after that render's
    [instances++]. *)
Record Render := {
  hook : nat;
  instanceId : Z;
  r_socketStatus : SocketStatus;
  r_playgroundOpen : bool;
  project : option string
}.

Inductive ReadyState := CONNECTING | OPEN | CLOSING | CLOSED.

Global Instance ReadyState_eq_dec : EqDecision ReadyState.
Proof. solve_decision. Defined.

(** A [WebSocket] object: [handlers] is the render whose [connect] installed
    [onopen], [onclose] and [onerror]; [onmessage] the render whose
    [handleMessage] is currently bound; [sent] the frames handed to [send]
    (a frame is [JSON.stringify] of the event, kept as the event). *)
Record WebSocket := {
  readyState : ReadyState;
  ws_project : string;
  handlers : Render;
  onmessage : Render;
  sent : list StudioClientEvent
}.

(** The bodies handed to [setTimeout] and [setInterval]. *)
Inductive Callback :=
| CbReconnect (r : Render)
| CbPythonDisconnected
| CbIsAlive (r : Render)
| CbOpenResultsPanel (panel : string).

(** A pending timer; [period] is [Some p] for an interval. *)
Record Timer := {
  tid : nat;
  due : Z;
  period : option Z;
  callback : Callback
}.

(** Observable effects outside the state: developer console and toasts. *)
Inductive Effect :=
| Debug (msg : string)
| ConsoleError (msg : string)
| Toast (title : string) (description : option string) (type : string)
        (duration : Z)
| AlertOnComponent (componentId : string)
                   (execution_state : option ExecutionState).

(** The module-level variables of the source, the hook's [useRef] cells, the
    store, and the browser. A timer handle is never falsy, so
    [if (handle)] is a test for [Some]. *)
Record World := {
  socketInstance : option nat;
  pythonDisconnectedTimeout : option nat;
  instances : Z;
  lastIsAliveCallTimestamp : Z;
  reconnectTimeoutRef : gmap nat nat;
  store : Store;
  sockets : list WebSocket;
  timers : list Timer;
  next_timer : nat;
  now : Z;
  log : list Effect
}.

Module W.

Definition set_socketInstance (v : option nat) (w : World) : World :=
  {| socketInstance := v;
     pythonDisconnectedTimeout := pythonDisconnectedTimeout w;
     instances := instances w;
     lastIsAliveCallTimestamp := lastIsAliveCallTimestamp w;
     reconnectTimeoutRef := reconnectTimeoutRef w; store := store w;
     sockets := sockets w; timers := timers w; next_timer := next_timer w;
     now := now w; log := log w |}.

Definition set_pythonDisconnectedTimeout (v : option nat) (w : World) : World :=
  {| socketInstance := socketInstance w; pythonDisconnectedTimeout := v;
     instances := instances w;
     lastIsAliveCallTimestamp := lastIsAliveCallTimestamp w;
     reconnectTimeoutRef := reconnectTimeoutRef w; store := store w;
     sockets := sockets w; timers := timers w; next_timer := next_timer w;
     now := now w; log := log w |}.

Definition set_instances (v : Z) (w : World) : World :=
  {| socketInstance := socketInstance w;
     pythonDisconnectedTimeout := pythonDisconnectedTimeout w;
     instances := v;
     lastIsAliveCallTimestamp := lastIsAliveCallTimestamp w;
     reconnectTimeoutRef := reconnectTimeoutRef w; store := store w;
     sockets := sockets w; timers := timers w; next_timer := next_timer w;
     now := now w; log := log w |}.

Definition set_lastIsAliveCallTimestamp (v : Z) (w : World) : World :=
  {| socketInstance := socketInstance w;
     pythonDisconnectedTimeout := pythonDisconnectedTimeout w;
     instances := instances w; lastIsAliveCallTimestamp := v;
     reconnectTimeoutRef := reconnectTimeoutRef w; store := store w;
     sockets := sockets w; timers := timers w; next_timer := next_timer w;
     now := now w; log := log w |}.

Definition set_reconnectTimeoutRef (v : gmap nat nat) (w : World) : World :=
  {| socketInstance := socketInstance w;
     pythonDisconnectedTimeout := pythonDisconnectedTimeout w;
     instances := instances w;
     lastIsAliveCallTimestamp := lastIsAliveCallTimestamp w;
     reconnectTimeoutRef := v; store := store w; sockets := sockets w;
     timers := timers w; next_timer := next_timer w; now := now w;
     log := log w |}.

Definition set_store (v : Store) (w : World) : World :=
  {| socketInstance := socketInstance w;
     pythonDisconnectedTimeout := pythonDisconnectedTimeout w;
     instances := instances w;
     lastIsAliveCallTimestamp := lastIsAliveCallTimestamp w;
     reconnectTimeoutRef := reconnectTimeoutRef w; store := v;
     sockets := sockets w; timers := timers w; next_timer := next_timer w;
     now := now w; log := log w |}.

Definition set_sockets (v : list WebSocket) (w : World) : World :=
  {| socketInstance := socketInstance w;
     pythonDisconnectedTimeout := pythonDisconnectedTimeout w;
     instances := instances w;
     lastIsAliveCallTimestamp := lastIsAliveCallTimestamp w;
     reconnectTimeoutRef := reconnectTimeoutRef w; store := store w;
     sockets := v; timers := timers w; next_timer := next_timer w;
     now := now w; log := log w |}.

Definition set_timers (v : list Timer) (w : World) : World :=
  {| socketInstance := socketInstance w;
     pythonDisconnectedTimeout := pythonDisconnectedTimeout w;
     instances := instances w;
     lastIsAliveCallTimestamp := lastIsAliveCallTimestamp w;
     reconnectTimeoutRef := reconnectTimeoutRef w; store := store w;
     sockets := sockets w; timers := v; next_timer := next_timer w;
     now := now w; log := log w |}.

Definition set_next_timer (v : nat) (w : World) : World :=
  {| socketInstance := socketInstance w;
     pythonDisconnectedTimeout := pythonDisconnectedTimeout w;
     instances := instances w;
     lastIsAliveCallTimestamp := lastIsAliveCallTimestamp w;
     reconnectTimeoutRef := reconnectTimeoutRef w; store := store w;
     sockets := sockets w; timers := timers w; next_timer := v;
     now := now w; log := log w |}.

Definition set_now (v : Z) (w : World) : World :=
  {| socketInstance := socketInstance w;
     pythonDisconnectedTimeout := pythonDisconnectedTimeout w;
     instances := instances w;
     lastIsAliveCallTimestamp := lastIsAliveCallTimestamp w;
     reconnectTimeoutRef := reconnectTimeoutRef w; store := store w;
     sockets := sockets w; timers := timers w; next_timer := next_timer w;
     now := v; log := log w |}.

Definition set_log (v : list Effect) (w : World) : World :=
  {| socketInstance := socketInstance w;
     pythonDisconnectedTimeout := pythonDisconnectedTimeout w;
     instances := instances w;
     lastIsAliveCallTimestamp := lastIsAliveCallTimestamp w;
     reconnectTimeoutRef := reconnectTimeoutRef w; store := store w;
     sockets := sockets w; timers := timers w; next_timer := next_timer w;
     now := now w; log := v |}.

Definition on_store (f : Store -> Store) (w : World) : World :=
  set_store (f (store w)) w.

Definition emit (e : Effect) (w : World) : World :=
  set_log (log w ++ [e]) w.

End W.

(** ** Browser primitives *)

Module Browser.

(** [Date.now()] *)
Definition Date_now (w : World) : Z := now w.

Definition is_timer (t : nat) (x : Timer) : bool := bool_decide (tid x = t).

Definition add_timer (p : option Z) (cb : Callback) (delay : Z) (w : World)
  : nat * World :=
  let t := next_timer w in
  (t, W.set_next_timer (S t)
        (W.set_timers
           (timers w ++ [ {| tid := t; due := now w + delay; period := p;
                             callback := cb |} ]) w)).

(** [setTimeout(cb, delay)] *)
Definition setTimeout (cb : Callback) (delay : Z) (w : World) : nat * World :=
  add_timer None cb delay w.

(** [setInterval(cb, delay)] *)
Definition setInterval (cb : Callback) (delay : Z) (w : World)
  : nat * World :=
  add_timer (Some delay) cb delay w.

(** [clearTimeout(t)] and [clearInterval(t)]: a handle that is no longer
    pending is ignored. *)
Definition clearTimeout (t : nat) (w : World) : World :=
  W.set_timers (filter (fun x => negb (is_timer t x)) (timers w)) w.

Definition clearInterval := clearTimeout.

Definition with_readyState (rs : ReadyState) (s : WebSocket) : WebSocket :=
  {| readyState := rs; ws_project := ws_project s; handlers := handlers s;
     onmessage := onmessage s; sent := sent s |}.

Definition with_onmessage (r : Render) (s : WebSocket) : WebSocket :=
  {| readyState := readyState s; ws_project := ws_project s;
     handlers := handlers s; onmessage := r; sent := sent s |}.

Definition with_sent (l : list StudioClientEvent) (s : WebSocket)
  : WebSocket :=
  {| readyState := readyState s; ws_project := ws_project s;
     handlers := handlers s; onmessage := onmessage s; sent := l |}.

Definition on_socket (sid : nat) (f : WebSocket -> WebSocket) (w : World)
  : World :=
  match sockets w !! sid with
  | Some s => W.set_sockets (<[sid := f s]> (sockets w)) w
  | None => w
  end.

(** [new WebSocket(url)] with the four handlers assigned right after: the
    object starts in [CONNECTING]. Returns its address. *)
Definition new_WebSocket (project_id : string) (r : Render) (w : World)
  : nat * World :=
  (length (sockets w),
   W.set_sockets
     (sockets w ++ [ {| readyState := CONNECTING; ws_project := project_id;
                        handlers := r; onmessage := r; sent := [] |} ]) w).

(** [socket.close()]: starts the closing handshake unless the socket is
    already closing or closed. *)
Definition close_state (rs : ReadyState) : ReadyState :=
  match rs with
  | CONNECTING | OPEN | CLOSING => CLOSING
  | CLOSED => CLOSED
  end.

Definition close (sid : nat) (w : World) : World :=
  on_socket sid (fun s => with_readyState (close_state (readyState s)) s) w.

(** [socket.send(frame)] on an open socket. *)
Definition send (sid : nat) (e : StudioClientEvent) (w : World) : World :=
  on_socket sid (fun s => with_sent (sent s ++ [e]) s) w.

(** [socketInstance?.readyState] *)
Definition instance_readyState (w : World) : option ReadyState :=
  sid ← socketInstance w; s ← sockets w !! sid; Some (readyState s).

(** [socketInstance?.readyState === WebSocket.OPEN] *)
Definition instance_open (w : World) : bool :=
  bool_decide (instance_readyState w = Some OPEN).

End Browser.

(** ** useSocketClient *)

Module SocketClient.

Import StoreOps Browser.

Definition setSocketStatus (v : SocketStatus) (w : World) : World :=
  W.on_store (StoreOps.setSocketStatus v) w.

(** [setSocketStatus((socketStatus) => ...)]: the updater receives the
    current value; it may write module variables on the way. *)
Definition setSocketStatus_with
    (f : SocketStatus -> World -> SocketStatus * World) (w : World) : World :=
  let '(v, w1) := f (socketStatus (store w)) w in
  setSocketStatus v w1.

(** The body of [useSocketClient] up to the hooks: [instances++], then the
    values a render reads from the store and from the project hook. *)
Definition useSocketClient (h : nat) (proj : option string) (w : World)
  : Render * World :=
  let w1 := W.set_instances (instances w + 1) w in
  ({| hook := h; instanceId := instances w1;
      r_socketStatus := socketStatus (store w1);
      r_playgroundOpen := playgroundOpen (store w1);
      project := proj |}, w1).

Definition checkIfUnreachableErrorMessage
    (r : Render) (message : option string) (w : World) : World :=
  if (bool_decide (r_socketStatus r = connected)
      && JS.opt_lower_includes message "runtime is unreachable")%bool
  then setSocketStatus connecting_python w
  else w.

Definition error_state (message : option string) (w : World)
  : ExecutionState :=
  {| status := Error; error := message;
     timestamps := {| finished_at := Some (Date_now w) |};
     until_node_id := None |}.

(** The [for ... of getWorkflow().nodes] loop: the array is the one read
    when the loop starts. *)
Fixpoint stop_nodes (ns : list Node) (message : option string) (w : World)
  : World :=
  match ns with
  | [] => w
  | node :: rest =>
      let w1 :=
        if bool_decide (status_of (execution_state (data node)) = Some Running)
        then W.on_store (setComponentExecutionState
                           (id node) (Some (error_state message w))) w
        else w in
      stop_nodes rest message w1
  end.

Definition stopWorkflowIfRunning (message : option string) (w : World)
  : World :=
  let w1 := W.on_store
              (setWorkflowExecutionState (Some (error_state message w))) w in
  stop_nodes (nodes (getWorkflow (store w1))) message w1.

Definition alertOnError (message : option string) (w : World) : World :=
  if (JS.opt_lower_includes message "stopped"
      || JS.opt_lower_includes message "interrupted")%bool
  then W.emit (Toast "Stopped" (JS.slice0 140 <$> message) "info" 3000) w
  else W.emit (Toast "Error" (JS.slice0 140 <$> message) "error" 5000) w.

(** Modelled from the spec: [useAlertOnComponent] is not among the sources;
    it "raises a component-scoped alert". *)
Definition alertOnComponent
    (componentId : string) (es : option ExecutionState) (w : World) : World :=
  W.emit (AlertOnComponent componentId es) w.

Definition event_type (e : StudioServerEvent) : string :=
  match e with
  | is_alive_response => "is_alive_response"
  | component_state_change _ _ => "component_state_change"
  | execution_state_change _ => "execution_state_change"
  | evaluation_state_change _ => "evaluation_state_change"
  | optimization_state_change _ => "optimization_state_change"
  | error_event _ => "error"
  | debug_event => "debug"
  | done_event => "done"
  | unknown_event t => t
  end.

Definition find_node (i : string) (ns : list Node) : option Node :=
  find (has_id i) ns.

(** [handleMessage], applied to the parsed message [msg]
    ([data] in the source). *)
Definition handleMessage (r : Render) (msg : StudioServerEvent) (w : World)
  : World :=
  let w := W.emit (Debug (event_type msg)) w in
  match msg with
  | is_alive_response =>
      let w1 :=
        match pythonDisconnectedTimeout w with
        | Some t => W.set_pythonDisconnectedTimeout None (clearTimeout t w)
        | None => w
        end in
      let w2 := W.emit (Debug "Python is alive, setting status to connected")
                       w1 in
      setSocketStatus connected w2
  | component_state_change component_id es =>
      let currentComponentState :=
        n ← find_node component_id (nodes (getWorkflow (store w)));
        execution_state (data n) in
      let w1 := W.on_store (setComponentExecutionState component_id es) w in
      let w2 :=
        if bool_decide (status_of es = Some Error)
        then alertOnComponent component_id es
               (checkIfUnreachableErrorMessage r (es ≫= error) w1)
        else w1 in
      let exec := execution (state (getWorkflow (store w2))) in
      if (negb (r_playgroundOpen r)
          && negb (bool_decide (status_of es = Some Running))
          && negb (bool_decide (status_of currentComponentState = Some Success))
          && ((bool_decide (status_of exec = Some Running)
               && bool_decide (exec ≫= until_node_id = Some component_id))
              || negb (bool_decide (status_of exec = Some Running))))%bool
      then W.on_store (setPropertiesExpanded true)
             (W.on_store (setSelectedNode component_id) w2)
      else w2
  | execution_state_change es =>
      let w1 := W.on_store (setWorkflowExecutionState es) w in
      if bool_decide (status_of es = Some Error)
      then stopWorkflowIfRunning (es ≫= error)
             (alertOnError (es ≫= error) w1)
      else w1
  | evaluation_state_change rs =>
      let currentEvaluationState :=
        evaluation (state (getWorkflow (store w))) in
      let w1 := W.on_store (setEvaluationState rs) w in
      if bool_decide (run_status_of rs = Some Error)
      then
        let w2 := alertOnError (rs ≫= run_error) w1 in
        if bool_decide (run_status_of currentEvaluationState = Some Waiting)
        then w2
        else snd (setTimeout (CbOpenResultsPanel "evaluations") 500 w2)
      else w1
  | optimization_state_change rs =>
      let currentOptimizationState :=
        optimization (state (getWorkflow (store w))) in
      let w1 := W.on_store (setOptimizationState rs) w in
      if bool_decide (run_status_of rs = Some Error)
      then
        let w2 := alertOnError (rs ≫= run_error) w1 in
        if bool_decide (run_status_of currentOptimizationState = Some Waiting)
        then w2
        else snd (setTimeout (CbOpenResultsPanel "optimizations") 500 w2)
      else w1
  | error_event message =>
      alertOnError message
        (stopWorkflowIfRunning message
           (checkIfUnreachableErrorMessage r message w))
  | debug_event => w
  | done_event => w
  | unknown_event t =>
      W.emit (Toast "Unknown message type on client" (Some t) "warning" 5000)
             w
  end.

(** [connect]: the closure created in render [r]. *)
Definition connect (r : Render) (w : World) : World :=
  match project r with
  | None => w
  | Some project_id =>
      if instance_open w then w
      else
        let w1 := setSocketStatus connecting_socket w in
        let '(sid, w2) := new_WebSocket project_id r w1 in
        W.set_socketInstance (Some sid) w2
  end.

Definition scheduleReconnect (r : Render) (w : World) : World :=
  match reconnectTimeoutRef w !! hook r with
  | Some _ => w
  | None =>
      let '(t, w1) := setTimeout (CbReconnect r) 5000 w in
      W.set_reconnectTimeoutRef (<[hook r := t]> (reconnectTimeoutRef w1)) w1
  end.

(** The updater passed to [setSocketStatus] in [onopen]. *)
Definition onopen_updater (socketStatus : SocketStatus) (w : World)
  : SocketStatus * World :=
  if (bool_decide (socketStatus = disconnected)
      || bool_decide (socketStatus = connecting_socket))%bool
  then (connecting_python, W.set_lastIsAliveCallTimestamp 0 w)
  else (socketStatus, w).

Definition onopen (r : Render) (w : World) : World :=
  setSocketStatus_with onopen_updater
    (W.emit (Debug "Socket opened, connecting to python") w).

Definition onclose (r : Render) (w : World) : World :=
  if instance_open w then w
  else
    scheduleReconnect r
      (setSocketStatus disconnected
         (W.emit (Debug "Socket closed, reconnecting") w)).

Definition onerror (r : Render) (w : World) : World :=
  scheduleReconnect r
    (setSocketStatus disconnected
       (W.emit (ConsoleError "WebSocket error:")
          (W.emit (Debug "Socket error, reconnecting") w))).

Definition disconnect (r : Render) (w : World) : World :=
  let w1 := W.emit (Debug "Socket disconnect triggered, closing socket") w in
  let w2 :=
    match socketInstance w1 with
    | Some sid => W.set_socketInstance None (close sid w1)
    | None => w1
    end in
  let w3 :=
    match reconnectTimeoutRef w2 !! hook r with
    | Some t =>
        W.set_reconnectTimeoutRef (delete (hook r) (reconnectTimeoutRef w2))
          (clearTimeout t w2)
    | None => w2
    end in
  setSocketStatus disconnected w3.

Definition not_connected_message : string :=
  "Cannot send message: WebSocket is not connected".

Definition sendMessage (event : StudioClientEvent) (w : World) : World :=
  if instance_open w then
    match socketInstance w with
    | Some sid => send sid event w
    | None => w
    end
  else W.emit (ConsoleError not_connected_message) w.

(** First effect: rebind [onmessage] to this render's [handleMessage]. *)
Definition rebindEffect (r : Render) (w : World) : World :=
  if bool_decide (instanceId r = instances w) then
    match socketInstance w with
    | Some sid => on_socket sid (with_onmessage r) w
    | None => w
    end
  else w.

Definition pythonReconnect (w : World) : World :=
  let '(t, w1) := setTimeout CbPythonDisconnected 10000 w in
  W.set_pythonDisconnectedTimeout (Some t) w1.

Definition isAlive (r : Render) (w : World) : World :=
  if bool_decide (instanceId r = instances w) then
    let w1 := W.set_lastIsAliveCallTimestamp (Date_now w) w in
    let w2 := sendMessage is_alive w1 in
    if (bool_decide (r_socketStatus r = connected)
        && bool_decide (pythonDisconnectedTimeout w2 = None))%bool
    then pythonReconnect w2
    else w2
  else w.

(** Second effect, the probe loop. Returns the interval handle its cleanup
    clears, or [None] when the fence stopped the effect before it set
    anything up. *)
Definition livenessEffect (r : Render) (w : World) : option nat * World :=
  if bool_decide (instanceId r = instances w) then
    let '(interval, w1) :=
      setInterval (CbIsAlive r)
        (if bool_decide (r_socketStatus r = connecting_python)
         then 5000 else 30000) w in
    let w2 :=
      if (bool_decide (r_socketStatus r = connecting_python)
          && (5000 <? Date_now w1 - lastIsAliveCallTimestamp w1))%bool
      then isAlive r w1
      else w1 in
    (Some interval, w2)
  else (None, w).

Definition livenessCleanup (interval : option nat) (w : World) : World :=
  match interval with
  | Some t => clearInterval t w
  | None => w
  end.

(** Third effect: its cleanup runs on unmount. *)
Definition unmountCleanup (w : World) : World :=
  W.set_instances (instances w - 1) w.

(** *** The event loop *)

Definition run_callback (cb : Callback) (w : World) : World :=
  match cb with
  | CbReconnect r =>
      connect r
        (W.set_reconnectTimeoutRef (delete (hook r) (reconnectTimeoutRef w))
           w)
  | CbPythonDisconnected => setSocketStatus connecting_python w
  | CbIsAlive r => isAlive r w
  | CbOpenResultsPanel panel =>
      W.on_store (setOpenResultsPanelRequest panel) w
  end.

Definition rearm (t : Timer) (w : World) : World :=
  match period t with
  | Some p =>
      W.set_timers
        ((fun x => if is_timer (tid t) x
                   then {| tid := tid x; due := due x + p;
                           period := period x; callback := callback x |}
                   else x) <$> timers w) w
  | None => clearTimeout (tid t) w
  end.

Definition pending (t : nat) (w : World) : option Timer :=
  find (is_timer t) (timers w).

(** A pending timer fires once the clock has reached its due time: a
    timeout leaves the pending set, an interval is due again one period
    later; then the body runs. *)
Definition fire_timer (t : nat) (w : World) : option World :=
  x ← pending t w;
  if due x <=? now w then Some (run_callback (callback x) (rearm x w))
  else None.

(** The clock moves forward by [dt] milliseconds with nothing running. *)
Definition elapse (dt : Z) (w : World) : World := W.set_now (now w + dt) w.

(** Events the browser delivers to a socket. When a connection is lost
    the browser first moves the socket to [CLOSED] and then fires [error]
    (on failure) and [close]. *)
Inductive SocketEvent :=
| EvOpen
| EvClose
| EvError
| EvMessage (msg : StudioServerEvent).

Definition deliver (sid : nat) (e : SocketEvent) (w : World) : World :=
  match sockets w !! sid with
  | None => w
  | Some s =>
      match e with
      | EvOpen =>
          onopen (handlers s) (on_socket sid (with_readyState OPEN) w)
      | EvClose =>
          onclose (handlers s) (on_socket sid (with_readyState CLOSED) w)
      | EvError =>
          onerror (handlers s) (on_socket sid (with_readyState CLOSED) w)
      | EvMessage msg => handleMessage (onmessage s) msg w
      end
  end.

(** When the browser may deliver an event: [open] to a connecting socket,
    a message to an open socket (a message that arrives once the socket is
    closing or closed is discarded by the browser). *)
Definition deliverable (sid : nat) (e : SocketEvent) (w : World) : bool :=
  match sockets w !! sid, e with
  | Some s, EvOpen => bool_decide (readyState s = CONNECTING)
  | Some s, EvMessage _ => bool_decide (readyState s = OPEN)
  | Some s, (EvClose | EvError) => true
  | None, _ => false
  end.

(** The world when the module is first loaded: no socket, no timer. *)
Definition init (s : Store) (t0 : Z) : World :=
  {| socketInstance := None; pythonDisconnectedTimeout := None;
     instances := 0; lastIsAliveCallTimestamp := 0;
     reconnectTimeoutRef := ∅; store := s; sockets := []; timers := [];
     next_timer := 1; now := t0; log := [] |}.

(** One turn of the event loop. Closures are over-approximated: a step may
    run a closure of any render. *)
Inductive step : World -> World -> Prop :=
| step_render h proj w : step w (snd (useSocketClient h proj w))
| step_connect r w : step w (connect r w)
| step_disconnect r w : step w (disconnect r w)
| step_sendMessage e w : step w (sendMessage e w)
| step_rebind r w : step w (rebindEffect r w)
| step_liveness r w : step w (snd (livenessEffect r w))
| step_cleanup i w : step w (livenessCleanup i w)
| step_unmount w : step w (unmountCleanup w)
| step_deliver sid e w :
    deliverable sid e w = true -> step w (deliver sid e w)
| step_fire t w w' : fire_timer t w = Some w' -> step w w'
| step_elapse dt w : 0 <= dt -> step w (elapse dt w).

Definition reachable (w : World) : Prop :=
  exists s t0, rtc step (init s t0) w.

(** *** Observations used in the statements *)

Definition is_reconnect_of (h : nat) (x : Timer) : bool :=
  match callback x with
  | CbReconnect r => bool_decide (hook r = h)
  | _ => false
  end.

Definition is_liveness (x : Timer) : bool :=
  match callback x with
  | CbPythonDisconnected => true
  | _ => false
  end.

(** The number of frames handed to [send], over all sockets. *)
Definition frames_sent (w : World) : nat :=
  sum_list ((fun s => length (sent s)) <$> sockets w).






(** The pending retry timers of the attachment [h]. *)
Definition reconnect_timers (h : nat) (w : World) : list Timer :=
  filter (is_reconnect_of h) (timers w).

(** The pending liveness timeouts. *)
Definition liveness_timers (w : World) : list Timer :=
  filter is_liveness (timers w).

(** [node.data.execution_state?.status === "running"] *)
Definition is_running (n : Node) : bool :=
  bool_decide (status_of (execution_state (data n)) = Some Running).

(** What the cascade has done to a store node once the snapshot nodes [ns]
    have been visited: a node sharing its id with a running snapshot node
    carries [es]. *)
Definition cascaded (ns : list Node) (es : option ExecutionState) (n : Node)
  : Node :=
  if existsb (fun k => has_id (id k) n && is_running k)%bool ns
  then {| id := id n; data := {| execution_state := es |} |}
  else n.

(** The timer side of the world. *)
Definition tstate (w : World) :=
  (timers w, next_timer w, reconnectTimeoutRef w,
   pythonDisconnectedTimeout w).

(** Timer handles are unique and below the next one to be issued; a
    pending retry timer is a timeout, the one its attachment's ref cell
    holds; a pending liveness timeout is the one
    [pythonDisconnectedTimeout] holds. *)
Record Inv (w : World) : Prop := {
  inv_fresh : Forall (fun x => (tid x < next_timer w)%nat) (timers w);
  inv_nodup : NoDup (tid <$> timers w);
  inv_reconnect : forall x r,
    x ∈ timers w -> callback x = CbReconnect r ->
    reconnectTimeoutRef w !! hook r = Some (tid x) /\ period x = None;
  inv_liveness : forall x,
    x ∈ timers w -> callback x = CbPythonDisconnected ->
    pythonDisconnectedTimeout w = Some (tid x)
}.

End SocketClient.

(** ** Samples *)

Module Sample.

Import StoreOps Browser SocketClient.

Definition st (s : ExecutionStatus) : option ExecutionState :=
  Some {| status := s; error := None;
          timestamps := {| finished_at := None |};
          until_node_id := None |}.

Definition node (i : string) (es : option ExecutionState) : Node :=
  {| id := i; data := {| execution_state := es |} |}.

(** A workflow with two running components. *)
Definition workflow0 : Workflow :=
  {| nodes := [node "entry" (st Success); node "llm" (st Running);
               node "end" None; node "eval" (st Running)];
     state := {| execution := st Running; evaluation := None;
                 optimization := None |} |}.

Definition store0 (s : SocketStatus) : Store :=
  {| socketStatus := s; workflow := workflow0; selectedNode := None;
     propertiesExpanded := false; openResultsPanelRequest := None;
     playgroundOpen := false |}.

(** The closures of a render of attachment [h] that saw status [s]. *)
Definition render (h : nat) (i : Z) (s : SocketStatus) : Render :=
  {| hook := h; instanceId := i; r_socketStatus := s;
     r_playgroundOpen := false; project := Some "project_1" |}.

Definition failed (m : string) : ExecutionState :=
  {| status := Error; error := Some m;
     timestamps := {| finished_at := None |}; until_node_id := None |}.

(** Page load at time 1000: first render, then [connect()]. *)
Definition boot : Render * World :=
  useSocketClient 0 (Some "project_1") (init (store0 disconnected) 1000).

Definition w_connecting : World := connect (fst boot) (snd boot).

(** [connect()] is called again before the first socket has opened: a
    second socket becomes the instance. The first one opens, the second is
    lost. *)
Definition w_second_lost : World :=
  deliver 1 EvClose (deliver 0 EvOpen (connect (fst boot) w_connecting)).

(** The socket opens; the hook renders again and rebinds [onmessage]. *)
Definition w_open : World := deliver 0 EvOpen w_connecting.

Definition render_open : Render * World :=
  useSocketClient 0 (Some "project_1") w_open.

(** The runtime answers; the render that sees [connected] rebinds. *)
Definition render_connected : Render * World :=
  useSocketClient 0 (Some "project_1")
    (deliver 0 (EvMessage is_alive_response)
       (rebindEffect (fst render_open) (snd render_open))).

Definition r_connected : Render := fst render_connected.

Definition w_connected : World :=
  rebindEffect r_connected (snd render_connected).

(** Thirty seconds later the probe of that render fires: [is_alive] is
    sent and the liveness timeout is armed. *)
Definition w_probing : World :=
  let w1 := snd (livenessEffect r_connected w_connected) in
  default w1 (fire_timer 1 (elapse 30000 w1)).

Definition unreachable_message : string :=
  "LLM provider runtime is unreachable".

(** While the liveness timeout is pending a component reports that the
    runtime is unreachable. *)
Definition w_unreachable : World :=
  deliver 0
    (EvMessage
       (component_state_change "llm" (Some (failed unreachable_message))))
    w_probing.

Definition run (rid : string) (s : ExecutionStatus) : RunState :=
  {| run_status := s; run_id := Some rid; progress := Some 3;
     total := Some 10; stdout := None; run_error := None |}.

(** Run "run-2" is the current evaluation. *)
Definition w_evaluating : World :=
  deliver 0 (EvMessage (evaluation_state_change (Some (run "run-2" Running))))
    w_connected.

End Sample.

(** ** Scenarios and further observations *)

Module Scenario.

Import StoreOps Browser SocketClient.

Definition is_toast (e : Effect) : bool :=
  match e with
  | Toast _ _ _ _ => true
  | _ => false
  end.

(** The number of toasts raised so far. *)
Definition toasts (w : World) : nat := length (filter is_toast (log w)).

(** The events that make the dispatcher raise a toast. *)
Definition raises_toast (msg : StudioServerEvent) : bool :=
  match msg with
  | execution_state_change es => bool_decide (status_of es = Some Error)
  | evaluation_state_change rs | optimization_state_change rs =>
      bool_decide (run_status_of rs = Some Error)
  | error_event _ | unknown_event _ => true
  | is_alive_response | component_state_change _ _ | debug_event
  | done_event => false
  end.

(** The error message on which the dispatcher runs
    [checkIfUnreachableErrorMessage]: that of a component error and that of
    a top-level [error]. *)
Definition reported_error (msg : StudioServerEvent) : option string :=
  match msg with
  | component_state_change _ es =>
      if bool_decide (status_of es = Some Error) then es ≫= error else None
  | error_event m => m
  | _ => None
  end.

(** One failed connection attempt of attachment [h]: the socket instance
    fails, five seconds pass, the retry timer held in the ref cell fires. *)
Definition retry_round (h : nat) (w : World) : option World :=
  sid ← socketInstance w;
  let w1 := elapse 5000 (deliver sid EvError w) in
  t ← reconnectTimeoutRef w1 !! h;
  fire_timer t w1.

Fixpoint retry_rounds (n : nat) (h : nat) (w : World) : option World :=
  match n with
  | O => Some w
  | S n' => w' ← retry_rounds n' h w; retry_round h w'
  end.

(** [connect()] twice before the first socket opened, then the second
    socket (the instance) opens: the first socket is still around. *)
Definition w_two_sockets : World :=
  deliver 1 EvOpen (connect (fst Sample.boot) Sample.w_connecting).

(** The socket has been open, and the render that saw [connecting-python]
    runs its effects six seconds later. *)
Definition w_opened_late : World := elapse 6000 (snd Sample.render_open).





(** A message made of ASCII characters only: for such a message a
    character of the embedding is one UTF-16 code unit of the source
    string, so that [slice] cuts at the same place. *)
Fixpoint ascii_only (s : string) : bool :=
  match s with
  | EmptyString => true
  | String c s' => (Nat.ltb (nat_of_ascii c) 128 && ascii_only s')%bool
  end.

(** The description [message?.slice(0, 140)] of a toast, as far as the
    embedding fixes it: none for an undefined message, the first 140
    characters for an ASCII message. *)
Definition describes (message d : option string) : Prop :=
  (message = None -> d = None)
  /\ (forall m, message = Some m -> ascii_only m = true ->
               d = Some (JS.slice0 140 m)).

(** [node.data.execution_state] with the node's state replaced by the
    error state when the node is running. *)
Definition stop_if_running (es : option ExecutionState) (n : Node) : Node :=
  if is_running n then {| id := id n; data := {| execution_state := es |} |}
  else n.

End Scenario.

(** * Properties *)

Module Facts.

Import StoreOps Browser SocketClient.

(** *** What each operation leaves alone *)

Lemma Inv_ext w w' : tstate w' = tstate w -> Inv w -> Inv w'.
Proof.
  unfold tstate. intros E [H1 H2 H3 H4].
  injection E as Et En Er Ep.
  split; rewrite ?Et, ?En, ?Er, ?Ep; assumption.
Qed.

Lemma stop_nodes_store ns m w :
  stop_nodes ns m w = W.set_store (store (stop_nodes ns m w)) w.
Proof.
  revert w. induction ns as [|n ns IH]; intros w; simpl.
  - destruct w; reflexivity.
  - case_bool_decide; [|apply IH].
    rewrite IH at 1. reflexivity.
Qed.

Lemma stopWorkflowIfRunning_store m w :
  stopWorkflowIfRunning m w
  = W.set_store (store (stopWorkflowIfRunning m w)) w.
Proof.
  unfold stopWorkflowIfRunning. rewrite stop_nodes_store at 1. reflexivity.
Qed.

Lemma tstate_stopWorkflowIfRunning m w :
  tstate (stopWorkflowIfRunning m w) = tstate w.
Proof. rewrite stopWorkflowIfRunning_store. reflexivity. Qed.

Lemma tstate_alertOnError m w : tstate (alertOnError m w) = tstate w.
Proof. unfold alertOnError. destruct (_ || _)%bool; reflexivity. Qed.

Lemma tstate_checkIfUnreachable r m w :
  tstate (checkIfUnreachableErrorMessage r m w) = tstate w.
Proof.
  unfold checkIfUnreachableErrorMessage. destruct (_ && _)%bool; reflexivity.
Qed.

Lemma tstate_connect r w : tstate (connect r w) = tstate w.
Proof.
  unfold connect. destruct (project r); [|reflexivity].
  destruct (instance_open w); reflexivity.
Qed.

Lemma tstate_on_socket sid f w : tstate (on_socket sid f w) = tstate w.
Proof. unfold on_socket. destruct (sockets w !! sid); reflexivity. Qed.

Lemma tstate_sendMessage e w : tstate (sendMessage e w) = tstate w.
Proof.
  unfold sendMessage. destruct (instance_open w); [|reflexivity].
  destruct (socketInstance w); [apply tstate_on_socket|reflexivity].
Qed.

Lemma tstate_rebindEffect r w : tstate (rebindEffect r w) = tstate w.
Proof.
  unfold rebindEffect. case_bool_decide; [|reflexivity].
  destruct (socketInstance w); [apply tstate_on_socket|reflexivity].
Qed.


(** Projections of updated worlds. *)
Ltac wsimpl :=
  cbn [socketInstance pythonDisconnectedTimeout instances
       lastIsAliveCallTimestamp reconnectTimeoutRef store sockets timers
       next_timer now log
       W.set_socketInstance W.set_pythonDisconnectedTimeout W.set_instances
       W.set_lastIsAliveCallTimestamp W.set_reconnectTimeoutRef W.set_store
       W.set_sockets W.set_timers W.set_next_timer W.set_now W.set_log
       W.on_store W.emit setSocketStatus clearTimeout].

(** *** The timer invariant *)

Lemma pending_Some t w x :
  pending t w = Some x -> x ∈ timers w /\ tid x = t.
Proof.
  unfold pending. intros H. apply find_some in H as [Hin Ht].
  split; [by apply list_elem_of_In|].
  unfold is_timer in Ht. by apply bool_decide_eq_true in Ht.
Qed.

Lemma elem_of_clearTimeout x t w :
  x ∈ timers (clearTimeout t w) <-> tid x <> t /\ x ∈ timers w.
Proof.
  unfold clearTimeout; simpl. rewrite list_elem_of_filter.
  unfold is_timer. rewrite negb_True, bool_decide_spec. tauto.
Qed.

Lemma Inv_clearTimeout t w : Inv w -> Inv (clearTimeout t w).
Proof.
  intros [H1 H2 H3 H4]. split.
  - simpl. rewrite Forall_forall in H1 |- *.
    intros x Hx. apply list_elem_of_filter in Hx as [_ Hx]. by apply H1.
  - simpl. eapply sublist_NoDup; [exact H2|].
    apply fmap_sublist, sublist_filter.
  - intros x r Hx. apply elem_of_clearTimeout in Hx as [_ Hx]. eauto.
  - intros x Hx. apply elem_of_clearTimeout in Hx as [_ Hx]. eauto.
Qed.

Lemma Inv_fresh_tid w x : Inv w -> x ∈ timers w -> tid x <> next_timer w.
Proof.
  intros [H1 _ _ _] Hx. rewrite Forall_forall in H1.
  specialize (H1 x Hx). lia.
Qed.

(** Adding a timer whose body is neither a retry nor a liveness timeout. *)
Lemma Inv_add_timer p cb d w :
  (forall r, cb <> CbReconnect r) -> cb <> CbPythonDisconnected ->
  Inv w -> Inv (snd (add_timer p cb d w)).
Proof.
  intros Hr Hl HI. pose proof HI as [H1 H2 H3 H4]. split; simpl.
  - rewrite Forall_app, Forall_singleton; simpl. split; [|lia].
    eapply Forall_impl; [exact H1|]. simpl; intros; lia.
  - rewrite fmap_app. apply NoDup_app. split; [done|]. split.
    + intros t Ht Ht'. simpl in Ht'. apply list_elem_of_singleton in Ht'.
      apply list_elem_of_fmap in Ht as (x & -> & Hx).
      by apply (Inv_fresh_tid w x).
    + simpl. apply NoDup_singleton.
  - intros x r Hx Hc. apply elem_of_app in Hx as [Hx|Hx]; [eauto|].
    apply list_elem_of_singleton in Hx. subst x. simpl in Hc.
    by destruct (Hr r).
  - intros x Hx Hc. apply elem_of_app in Hx as [Hx|Hx]; [eauto|].
    apply list_elem_of_singleton in Hx. subst x. simpl in Hc. done.
Qed.

Lemma Inv_scheduleReconnect r w : Inv w -> Inv (scheduleReconnect r w).
Proof.
  intros HI. unfold scheduleReconnect.
  destruct (reconnectTimeoutRef w !! hook r) eqn:E; [done|].
  pose proof HI as [H1 H2 H3 H4]. split; simpl.
  - rewrite Forall_app, Forall_singleton; simpl. split; [|lia].
    eapply Forall_impl; [exact H1|]. simpl; intros; lia.
  - rewrite fmap_app. apply NoDup_app. split; [done|]. split.
    + intros t Ht Ht'. simpl in Ht'. apply list_elem_of_singleton in Ht'.
      apply list_elem_of_fmap in Ht as (x & -> & Hx).
      by apply (Inv_fresh_tid w x).
    + simpl. apply NoDup_singleton.
  - intros x r' Hx Hc. apply elem_of_app in Hx as [Hx|Hx].
    + destruct (H3 x r' Hx Hc) as [Hx1 Hx2]. split; [|done].
      rewrite lookup_insert_ne; [done|]. intros Heq. congruence.
    + apply list_elem_of_singleton in Hx. subst x. simpl in *.
      injection Hc as <-. by rewrite lookup_insert_eq.
  - intros x Hx Hc. apply elem_of_app in Hx as [Hx|Hx]; [eauto|].
    apply list_elem_of_singleton in Hx. subst x. simpl in Hc. done.
Qed.

Lemma Inv_disconnect r w : Inv w -> Inv (disconnect r w).
Proof.
  intros HI. unfold disconnect. cbv zeta.
  match goal with
  | |- Inv (setSocketStatus _ ?x) => apply (Inv_ext x); [reflexivity|]
  end.
  set (w1 := W.emit _ w).
  assert (HI1 : Inv w1) by (revert HI; apply Inv_ext; reflexivity).
  set (w2 := match socketInstance w1 with Some _ => _ | None => _ end).
  assert (HI2 : Inv w2).
  { revert HI1. apply Inv_ext. subst w2.
    destruct (socketInstance w1); [|reflexivity].
    unfold close. simpl. apply tstate_on_socket. }
  clearbody w2. clear w1 HI1 HI.
  destruct (reconnectTimeoutRef w2 !! hook r) as [t|] eqn:E; [|done].
  pose proof (Inv_clearTimeout t w2 HI2) as [H1 H2 H3 H4].
  split; try done. simpl. intros x r' Hx Hc.
  destruct (H3 x r' Hx Hc) as [Hr Hp]. split; [|done].
  simpl in Hr. apply elem_of_clearTimeout in Hx as [Hne _].
  rewrite lookup_delete_ne; [done|]. intros Heq.
  rewrite <- Heq in Hr. congruence.
Qed.

Lemma Inv_pythonReconnect w :
  pythonDisconnectedTimeout w = None -> Inv w -> Inv (pythonReconnect w).
Proof.
  intros E HI. pose proof HI as [H1 H2 H3 H4]. split; simpl.
  - rewrite Forall_app, Forall_singleton; simpl. split; [|lia].
    eapply Forall_impl; [exact H1|]. simpl; intros; lia.
  - rewrite fmap_app. apply NoDup_app. split; [done|]. split.
    + intros t Ht Ht'. simpl in Ht'. apply list_elem_of_singleton in Ht'.
      apply list_elem_of_fmap in Ht as (x & -> & Hx).
      by apply (Inv_fresh_tid w x).
    + simpl. apply NoDup_singleton.
  - intros x r Hx Hc. apply elem_of_app in Hx as [Hx|Hx]; [eauto|].
    apply list_elem_of_singleton in Hx. subst x. simpl in Hc. done.
  - intros x Hx Hc. apply elem_of_app in Hx as [Hx|Hx].
    + specialize (H4 x Hx Hc). congruence.
    + apply list_elem_of_singleton in Hx. by subst x.
Qed.

Lemma Inv_isAlive r w : Inv w -> Inv (isAlive r w).
Proof.
  intros HI. unfold isAlive. case_bool_decide; [|done].
  set (w2 := sendMessage _ _).
  assert (HI2 : Inv w2).
  { revert HI. apply Inv_ext. subst w2. by rewrite tstate_sendMessage. }
  destruct (bool_decide (r_socketStatus r = connected)); [|done]. simpl.
  case_bool_decide; [|done]. by apply Inv_pythonReconnect.
Qed.

Lemma Inv_livenessEffect r w : Inv w -> Inv (snd (livenessEffect r w)).
Proof.
  intros HI. unfold livenessEffect. case_bool_decide; [|done].
  unfold setInterval.
  destruct (add_timer _ _ _ w) as [t w1] eqn:E. simpl.
  assert (HI1 : Inv w1).
  { change w1 with (snd (t, w1)). rewrite <- E.
    apply Inv_add_timer; [done..|exact HI]. }
  destruct (_ && _)%bool; [by apply Inv_isAlive|done].
Qed.

Lemma Inv_handleMessage r msg w : Inv w -> Inv (handleMessage r msg w).
Proof.
  intros HI. unfold handleMessage.
  set (w0 := W.emit (Debug (event_type msg)) w).
  assert (HI0 : Inv w0) by (revert HI; apply Inv_ext; reflexivity).
  clearbody w0. clear HI w. destruct msg.
  - (* is_alive_response *)
    apply (Inv_ext (match pythonDisconnectedTimeout w0 with
                    | Some t => W.set_pythonDisconnectedTimeout None
                                  (clearTimeout t w0)
                    | None => w0 end)); [reflexivity|].
    destruct (pythonDisconnectedTimeout w0) as [t|] eqn:E; [|done].
    pose proof (Inv_clearTimeout t w0 HI0) as [H1 H2 H3 H4].
    split; try done. simpl. intros x Hx Hc.
    specialize (H4 x Hx Hc). simpl in H4.
    apply elem_of_clearTimeout in Hx as [Hne _]. congruence.
  - (* component_state_change *)
    revert HI0. apply Inv_ext.
    unfold alertOnComponent, checkIfUnreachableErrorMessage.
    repeat match goal with
           | |- context [if ?b then _ else _] => destruct b
           end; reflexivity.
  - (* execution_state_change *)
    revert HI0. apply Inv_ext. case_bool_decide; [|reflexivity].
    by rewrite tstate_stopWorkflowIfRunning, tstate_alertOnError.
  - (* evaluation_state_change *)
    case_bool_decide; [|revert HI0; apply Inv_ext; reflexivity].
    set (w2 := alertOnError _ _).
    assert (HI2 : Inv w2).
    { revert HI0. apply Inv_ext. subst w2. by rewrite tstate_alertOnError. }
    case_bool_decide; [done|]. by apply Inv_add_timer.
  - (* optimization_state_change *)
    case_bool_decide; [|revert HI0; apply Inv_ext; reflexivity].
    set (w2 := alertOnError _ _).
    assert (HI2 : Inv w2).
    { revert HI0. apply Inv_ext. subst w2. by rewrite tstate_alertOnError. }
    case_bool_decide; [done|]. by apply Inv_add_timer.
  - (* error *)
    revert HI0. apply Inv_ext.
    by rewrite tstate_alertOnError, tstate_stopWorkflowIfRunning,
      tstate_checkIfUnreachable.
  - done.
  - done.
  - revert HI0. apply Inv_ext. reflexivity.
Qed.

Lemma elem_of_rearm_interval y t p w :
  period t = Some p -> y ∈ timers (rearm t w) ->
  exists x, x ∈ timers w /\ tid y = tid x /\ callback y = callback x
            /\ period y = period x.
Proof.
  unfold rearm. intros ->. simpl. intros Hy.
  apply list_elem_of_fmap in Hy as (x & -> & Hx).
  exists x. by destruct (is_timer (tid t) x).
Qed.

Lemma Inv_rearm t w : Inv w -> Inv (rearm t w).
Proof.
  intros HI. destruct (period t) as [p|] eqn:E.
  2:{ unfold rearm. rewrite E. by apply Inv_clearTimeout. }
  pose proof HI as [H1 H2 H3 H4]. split.
  - rewrite Forall_forall in H1 |- *. intros y Hy.
    destruct (elem_of_rearm_interval y t p w E Hy) as (x & Hx & -> & _).
    unfold rearm. rewrite E. simpl. by apply H1.
  - unfold rearm. rewrite E. simpl. rewrite <- list_fmap_compose.
    erewrite list_fmap_ext; [exact H2|].
    intros i x _. simpl. by destruct (is_timer (tid t) x).
  - intros y r Hy Hc.
    destruct (elem_of_rearm_interval y t p w E Hy) as (x & Hx & -> & Hcb & ->).
    unfold rearm. rewrite E. simpl. apply H3; [done|congruence].
  - intros y Hy Hc.
    destruct (elem_of_rearm_interval y t p w E Hy) as (x & Hx & -> & Hcb & _).
    unfold rearm. rewrite E. simpl. apply H4; [done|congruence].
Qed.

Lemma Inv_fire_timer t w w' : Inv w -> fire_timer t w = Some w' -> Inv w'.
Proof.
  intros HI. unfold fire_timer.
  destruct (pending t w) as [x|] eqn:Ep; [|done]. simpl.
  destruct (due x <=? now w); [|done]. intros [= <-].
  apply pending_Some in Ep as [Hx <-].
  pose proof (Inv_rearm x w HI) as HI1.
  destruct (callback x) as [r| |r|panel] eqn:Ec; simpl.
  - eapply Inv_ext; [apply tstate_connect|].
    destruct (inv_reconnect w HI x r Hx Ec) as [Href Hper].
    unfold rearm in *. rewrite Hper in *.
    destruct HI1 as [H1 H2 H3 H4]. split; try done.
    simpl. intros y r' Hy Hc. destruct (H3 y r' Hy Hc) as [Hy1 Hy2].
    split; [|done]. simpl in Hy1.
    apply elem_of_clearTimeout in Hy as [Hne _].
    rewrite lookup_delete_ne; [done|]. intros Heq.
    rewrite <- Heq in Hy1. congruence.
  - revert HI1. apply Inv_ext. reflexivity.
  - by apply Inv_isAlive.
  - revert HI1. apply Inv_ext. reflexivity.
Qed.

Lemma Inv_deliver sid e w : Inv w -> Inv (deliver sid e w).
Proof.
  intros HI. unfold deliver. destruct (sockets w !! sid) as [s|]; [|done].
  destruct e.
  - revert HI. apply Inv_ext. unfold onopen, setSocketStatus_with.
    simpl. unfold onopen_updater.
    destruct (_ || _)%bool; simpl;
      unfold on_socket; destruct (sockets w !! sid); reflexivity.
  - unfold onclose. destruct (instance_open _).
    + revert HI. apply Inv_ext. apply tstate_on_socket.
    + apply Inv_scheduleReconnect. revert HI. apply Inv_ext.
      unfold on_socket; destruct (sockets w !! sid); reflexivity.
  - unfold onerror. apply Inv_scheduleReconnect. revert HI. apply Inv_ext.
    unfold on_socket; destruct (sockets w !! sid); reflexivity.
  - by apply Inv_handleMessage.
Qed.

Lemma Inv_init s t0 : Inv (init s t0).
Proof.
  split; simpl.
  - constructor.
  - constructor.
  - intros x r Hx. by apply not_elem_of_nil in Hx.
  - intros x Hx. by apply not_elem_of_nil in Hx.
Qed.

Lemma Inv_step w w' : step w w' -> Inv w -> Inv w'.
Proof.
  intros Hs HI. destruct Hs.
  - revert HI. apply Inv_ext. reflexivity.
  - revert HI. apply Inv_ext. apply tstate_connect.
  - by apply Inv_disconnect.
  - revert HI. apply Inv_ext. apply tstate_sendMessage.
  - revert HI. apply Inv_ext. apply tstate_rebindEffect.
  - by apply Inv_livenessEffect.
  - destruct i; [by apply Inv_clearTimeout|done].
  - revert HI. apply Inv_ext. reflexivity.
  - by apply Inv_deliver.
  - by eapply Inv_fire_timer.
  - revert HI. apply Inv_ext. reflexivity.
Qed.

Lemma Inv_reachable w : reachable w -> Inv w.
Proof.
  intros (s & t0 & Hr).
  assert (HI := Inv_init s t0). revert HI.
  induction Hr as [|w1 w2 w3 H12 _ IH]; [done|].
  intros HI. apply IH. by eapply Inv_step.
Qed.

(** *** The cascade of [stopWorkflowIfRunning] *)

Lemma existsb_has_id_put i j es (l : list Node) :
  existsb (has_id i) (put_state j es <$> l) = existsb (has_id i) l.
Proof.
  induction l as [|n l IH]; [done|].
  rewrite fmap_cons. cbn [existsb]. rewrite IH. f_equal.
  unfold put_state. by destruct (has_id j n).
Qed.

Lemma cascaded_put k rest es n :
  is_running k = true ->
  cascaded rest es (put_state (id k) es n) = cascaded (k :: rest) es n.
Proof.
  intros Hk. unfold cascaded at 2. simpl. rewrite Hk, andb_true_r.
  unfold put_state. destruct (has_id (id k) n) eqn:E; simpl; [|done].
  unfold cascaded. simpl.
  match goal with |- (if ?b then _ else _) = _ => by destruct b end.
Qed.

Lemma cascaded_skip k rest es n :
  is_running k = false -> cascaded rest es n = cascaded (k :: rest) es n.
Proof.
  intros Hk. unfold cascaded. simpl. by rewrite Hk, andb_false_r.
Qed.

Lemma stop_nodes_nodes ns m w :
  (forall n, n ∈ ns ->
             existsb (has_id (id n)) (nodes (workflow (store w))) = true) ->
  nodes (workflow (store (stop_nodes ns m w)))
  = cascaded ns (Some (error_state m w)) <$> nodes (workflow (store w)).
Proof.
  revert w. induction ns as [|k rest IH]; intros w Hids.
  - simpl. unfold cascaded. simpl. by rewrite list_fmap_id.
  - simpl. fold (is_running k). destruct (is_running k) eqn:Hk.
    + rewrite IH.
      * simpl. unfold setComponentExecutionState.
        rewrite (Hids k) by left. simpl.
        rewrite <- list_fmap_compose. apply list_fmap_ext.
        intros i n _. simpl. by apply cascaded_put.
      * intros n Hn. simpl. unfold setComponentExecutionState.
        rewrite (Hids k) by left. simpl.
        rewrite existsb_has_id_put. apply Hids. by right.
    + rewrite IH by (intros n Hn; apply Hids; by right).
      apply list_fmap_ext. intros i n _. by apply cascaded_skip.
Qed.

Lemma stop_nodes_state ns m w :
  state (workflow (store (stop_nodes ns m w))) = state (workflow (store w)).
Proof.
  revert w. induction ns as [|k rest IH]; intros w; [done|].
  simpl. case_bool_decide; rewrite IH; reflexivity.
Qed.

Lemma existsb_has_id_self (l : list Node) n :
  n ∈ l -> existsb (has_id (id n)) l = true.
Proof.
  intros Hn. apply existsb_exists. exists n.
  split; [by apply list_elem_of_In|]. unfold has_id.
  by apply bool_decide_eq_true.
Qed.

Lemma stopWorkflowIfRunning_nodes m w :
  nodes (workflow (store (stopWorkflowIfRunning m w)))
  = cascaded (nodes (workflow (store w))) (Some (error_state m w))
      <$> nodes (workflow (store w)).
Proof.
  unfold stopWorkflowIfRunning. rewrite stop_nodes_nodes.
  - reflexivity.
  - intros n Hn. simpl. by apply existsb_has_id_self.
Qed.

Lemma cascaded_self (l : list Node) es n :
  n ∈ l ->
  id (cascaded l es n) = id n
  /\ (is_running n = true -> execution_state (data (cascaded l es n)) = es)
  /\ (status_of es <> Some Running ->
      is_running (cascaded l es n) = true -> False).
Proof.
  intros Hn. unfold cascaded.
  destruct (existsb _ l) eqn:E; simpl.
  - split; [done|]. split; [done|]. intros Hes Hr.
    unfold is_running in Hr. simpl in Hr.
    by apply bool_decide_eq_true in Hr.
  - split; [done|]. split; [|intros _ Hr].
    + intros Hr. exfalso.
      assert (existsb (fun k => has_id (id k) n && is_running k)%bool l
              = true) as E'; [|congruence].
      apply existsb_exists. exists n.
      split; [by apply list_elem_of_In|]. rewrite Hr, andb_true_r.
      unfold has_id. by apply bool_decide_eq_true.
    + assert (existsb (fun k => has_id (id k) n && is_running k)%bool l
              = true) as E'; [|congruence].
      apply existsb_exists. exists n.
      split; [by apply list_elem_of_In|]. rewrite Hr, andb_true_r.
      unfold has_id. by apply bool_decide_eq_true.
Qed.

(** *** Pending timers *)

Lemma filter_none {A} (P : A -> Prop) `{forall x, Decision (P x)}
    (l : list A) :
  (forall x, x ∈ l -> ~ P x) -> filter P l = [].
Proof.
  induction l as [|x l IH]; intros Hl; [done|].
  rewrite filter_cons_False by (apply Hl; left).
  apply IH. intros y Hy. apply Hl. by right.
Qed.

Lemma find_none_intro {A} (f : A -> bool) (l : list A) :
  (forall x, x ∈ l -> f x = false) -> find f l = None.
Proof.
  induction l as [|x l IH]; intros Hl; [done|]. simpl.
  rewrite (Hl x) by left. apply IH. intros y Hy. apply Hl. by right.
Qed.


Lemma find_app_r {A} (f : A -> bool) (l k : list A) :
  find f l = None -> find f (l ++ k) = find f k.
Proof.
  induction l as [|y l IH]; [done|]. simpl. destruct (f y); [done|auto].
Qed.

Lemma pending_clearTimeout t w : pending t (clearTimeout t w) = None.
Proof.
  unfold pending. apply find_none_intro. intros x Hx.
  apply elem_of_clearTimeout in Hx as [Hne _].
  unfold is_timer. by apply bool_decide_eq_false.
Qed.

Lemma pending_fresh w : Inv w -> pending (next_timer w) w = None.
Proof.
  intros HI. unfold pending. apply find_none_intro. intros x Hx.
  unfold is_timer. apply bool_decide_eq_false.
  by apply Inv_fresh_tid.
Qed.

Lemma liveness_timers_None w :
  Inv w -> pythonDisconnectedTimeout w = None -> liveness_timers w = [].
Proof.
  intros HI E. unfold liveness_timers. apply filter_none.
  intros x Hx Hl. unfold is_liveness in Hl.
  destruct (callback x) eqn:Ec; try done.
  pose proof (inv_liveness w HI x Hx Ec). congruence.
Qed.

Lemma reconnect_timers_None h w :
  Inv w -> reconnectTimeoutRef w !! h = None -> reconnect_timers h w = [].
Proof.
  intros HI E. unfold reconnect_timers. apply filter_none.
  intros x Hx Hl. unfold is_reconnect_of in Hl.
  destruct (callback x) as [r| | |] eqn:Ec; try done.
  apply bool_decide_spec in Hl. subst h.
  destruct (inv_reconnect w HI x r Hx Ec). congruence.
Qed.

(** *** Transport loss and the retry timer *)

Lemma instance_open_closed sid s w :
  socketInstance w = Some sid -> sockets w !! sid = Some s ->
  readyState s <> OPEN -> instance_open w = false.
Proof.
  intros Hi Hs Hr. unfold instance_open, instance_readyState.
  rewrite Hi. simpl. rewrite Hs. simpl.
  apply bool_decide_eq_false. congruence.
Qed.


Lemma tstate_inv w w' :
  tstate w' = tstate w ->
  timers w' = timers w /\ next_timer w' = next_timer w
  /\ reconnectTimeoutRef w' = reconnectTimeoutRef w
  /\ pythonDisconnectedTimeout w' = pythonDisconnectedTimeout w.
Proof. unfold tstate. by intros [= -> -> -> ->]. Qed.




(** *** The probe loop *)

Lemma sum_list_insert {A} (f : A -> nat) (l : list A) i x y :
  l !! i = Some x -> f y = S (f x) ->
  sum_list (f <$> <[i := y]> l) = S (sum_list (f <$> l)).
Proof.
  revert i. induction l as [|a l IH]; intros [|i] Hl Hf; try done.
  - simpl in Hl. injection Hl as ->. simpl. lia.
  - change (<[S i:=y]> (a :: l)) with (a :: <[i:=y]> l).
    rewrite !fmap_cons.
    change (sum_list (f a :: (f <$> <[i:=y]> l)))
      with (f a + sum_list (f <$> <[i:=y]> l))%nat.
    change (sum_list (f a :: (f <$> l)))
      with (f a + sum_list (f <$> l))%nat.
    rewrite (IH i Hl Hf). lia.
Qed.









(** *** The connection status under workflow errors *)

Lemma stop_nodes_socketStatus ns m w :
  socketStatus (store (stop_nodes ns m w)) = socketStatus (store w).
Proof.
  revert w. induction ns as [|k rest IH]; intros w; [done|].
  simpl. case_bool_decide; rewrite IH; reflexivity.
Qed.

(** No [execution_state_change] touches the connection status. *)
Lemma execution_state_change_socketStatus r es w :
  socketStatus (store (handleMessage r (execution_state_change es) w))
  = socketStatus (store w).
Proof.
  unfold handleMessage. case_bool_decide; [|reflexivity].
  unfold stopWorkflowIfRunning. rewrite stop_nodes_socketStatus.
  unfold alertOnError. by destruct (_ || _)%bool.
Qed.

(** *** The sample worlds are reachable *)

Lemma reachable_step w w' : reachable w -> step w w' -> reachable w'.
Proof.
  intros (s & t0 & Hr) Hs. exists s, t0. by eapply rtc_r.
Qed.

Lemma reachable_w_connected : reachable Sample.w_connected.
Proof.
  eapply reachable_step; [|apply step_rebind].
  eapply reachable_step; [|apply (step_render 0 (Some "project_1"))].
  eapply reachable_step;
    [|apply (step_deliver 0 (EvMessage is_alive_response)); vm_compute;
      reflexivity].
  eapply reachable_step; [|apply step_rebind].
  eapply reachable_step; [|apply (step_render 0 (Some "project_1"))].
  eapply reachable_step;
    [|apply (step_deliver 0 EvOpen); vm_compute; reflexivity].
  eapply reachable_step; [|apply step_connect].
  eapply reachable_step; [|apply (step_render 0 (Some "project_1"))].
  exists (Sample.store0 disconnected), 1000. apply rtc_refl.
Qed.

Lemma reachable_w_probing : reachable Sample.w_probing.
Proof.
  eapply reachable_step;
    [|apply (step_fire 1
               (elapse 30000
                  (snd (livenessEffect Sample.r_connected
                          Sample.w_connected)))); vm_compute; reflexivity].
  eapply reachable_step; [|apply (step_elapse 30000); lia].
  eapply reachable_step; [|apply (step_liveness Sample.r_connected)].
  apply reachable_w_connected.
Qed.

Lemma reachable_w_unreachable : reachable Sample.w_unreachable.
Proof.
  eapply reachable_step; [apply reachable_w_probing|].
  apply step_deliver. vm_compute; reflexivity.
Qed.

End Facts.

(** * The claims *)

Module Claims.

Import StoreOps Browser SocketClient Facts.

(** C1 (cascade-stop). On an [execution_state_change] whose state has
    status [error] and message [error es], every node keeps its place and
    id, every node that was [running] carries status [error], the same
    message and a [finished_at] timestamp, the workflow state itself is
    that error state, and no node is left [running]. *)
Theorem C1_cascade_stop r es w :
  status es = Error ->
  let w' := handleMessage r (execution_state_change (Some es)) w in
  let stopped :=
    Some {| status := Error; error := error es;
            timestamps := {| finished_at := Some (now w) |};
            until_node_id := None |} in
  Forall2 (fun n n' =>
             id n' = id n
             /\ (status_of (execution_state (data n)) = Some Running ->
                 execution_state (data n') = stopped))
          (nodes (workflow (store w))) (nodes (workflow (store w')))
  /\ Forall (fun n' =>
               status_of (execution_state (data n')) <> Some Running)
            (nodes (workflow (store w')))
  /\ execution (state (workflow (store w'))) = stopped.
Proof.
  intros Hes w' stopped. subst w'. unfold handleMessage.
  rewrite bool_decide_eq_true_2 by (simpl; congruence).
  set (w1 := alertOnError _ _).
  assert (Hn : nodes (workflow (store w1)) = nodes (workflow (store w))).
  { subst w1. unfold alertOnError. by destruct (_ || _)%bool. }
  assert (Ht : error_state (Some es ≫= error) w1 = {|
                 status := Error; error := error es;
                 timestamps := {| finished_at := Some (now w) |};
                 until_node_id := None |}).
  { subst w1. unfold alertOnError, error_state, Date_now.
    by destruct (_ || _)%bool. }
  rewrite stopWorkflowIfRunning_nodes, Hn, Ht. fold stopped.
  split; [|split].
  - apply Forall2_fmap_r, Forall_Forall2_diag, Forall_forall.
    intros n Hn'.
    destruct (cascaded_self (nodes (workflow (store w))) stopped n Hn')
      as (Hid & Hrun & _).
    split; [done|]. intros Hr. apply Hrun. unfold is_running.
    by apply bool_decide_eq_true.
  - apply Forall_fmap, Forall_forall. intros n Hn' Hr. simpl in Hr.
    destruct (cascaded_self (nodes (workflow (store w))) stopped n Hn')
      as (_ & _ & Hno).
    apply Hno; [done|]. unfold is_running. by apply bool_decide_eq_true.
  - unfold stopWorkflowIfRunning. rewrite stop_nodes_state.
    cbn [store W.on_store W.set_store setWorkflowExecutionState with_state
         with_workflow workflow state execution].
    by rewrite Ht.
Qed.

Lemma C1_cascade_stop_witness :
  let w := init (Sample.store0 connected) 1000 in
  let w' := handleMessage (Sample.render 0 1 connected)
              (execution_state_change (Some (Sample.failed "boom"))) w in
  nodes (workflow (store w'))
  = [Sample.node "entry" (Sample.st Success);
     Sample.node "llm"
       (Some {| status := Error; error := Some "boom";
                timestamps := {| finished_at := Some 1000 |};
                until_node_id := None |});
     Sample.node "end" None;
     Sample.node "eval"
       (Some {| status := Error; error := Some "boom";
                timestamps := {| finished_at := Some 1000 |};
                until_node_id := None |})]
  /\ Forall (fun n' =>
               status_of (execution_state (data n')) <> Some Running)
            (nodes (workflow (store w'))).
Proof.
  split; [reflexivity|].
  apply (C1_cascade_stop (Sample.render 0 1 connected)
           (Sample.failed "boom")
           (init (Sample.store0 connected) 1000)).
  reflexivity.
Defined.

(** C2, as amended. The dispatcher compares no run ids: whatever
    evaluation state an [evaluation_state_change] carries becomes the
    stored one. *)
Theorem C2_evaluation_state_replaced r rs w :
  evaluation
    (state (workflow (store (handleMessage r (evaluation_state_change rs) w))))
  = rs.
Proof.
  unfold handleMessage. case_bool_decide; [|reflexivity].
  unfold alertOnError. destruct (_ || _)%bool; case_bool_decide; reflexivity.
Qed.

(** C2 as stated fails: with run "run-2" current and running, a message
    for the older run "run-1" overwrites the stored state. *)
Lemma C2_stale_run_overwrites :
  let r := Sample.r_connected in
  let current := Sample.run "run-2" Running in
  let stale := Sample.run "run-1" Success in
  let w' := handleMessage r (evaluation_state_change (Some stale))
              Sample.w_evaluating in
  String.ltb "run-1" "run-2" = true
  /\ evaluation (state (workflow (store Sample.w_evaluating))) = Some current
  /\ evaluation (state (workflow (store w'))) = Some stale
  /\ evaluation (state (workflow (store w')))
     <> evaluation (state (workflow (store Sample.w_evaluating))).
Proof. repeat split; try reflexivity. discriminate. Qed.

(** C3, the code at the failing input. The connection is [connected] and
    the closure saw [connected]; a workflow error carrying the
    runtime-unreachable phrase leaves the status [connected], whereas the
    same message in a top-level [error] event or in a component error
    moves it to [connecting-python]. *)
Lemma C3_execution_error_keeps_connected :
  let r := Sample.r_connected in
  let m := Sample.unreachable_message in
  socketStatus (store Sample.w_connected) = connected
  /\ socketStatus
       (store (handleMessage r
                 (execution_state_change (Some (Sample.failed m)))
                 Sample.w_connected)) = connected
  /\ socketStatus
       (store (handleMessage r (error_event (Some m)) Sample.w_connected))
     = connecting_python
  /\ socketStatus
       (store (handleMessage r
                 (component_state_change "llm" (Some (Sample.failed m)))
                 Sample.w_connected)) = connecting_python.
Proof. repeat split; reflexivity. Qed.







(** C6 (liveness round trip). In [connecting-python] with the liveness
    timeout armed, an [is_alive_response] clears the timeout, so that it
    is no longer pending and no liveness timeout is outstanding, and sets
    the status to [connected]; the other pending timers are kept. *)
Theorem C6_liveness_round_trip r w t x :
  Inv w ->
  socketStatus (store w) = connecting_python ->
  pythonDisconnectedTimeout w = Some t ->
  pending t w = Some x ->
  callback x = CbPythonDisconnected ->
  let w' := handleMessage r is_alive_response w in
  socketStatus (store w') = connected
  /\ pythonDisconnectedTimeout w' = None
  /\ pending t w' = None
  /\ liveness_timers w' = []
  /\ (forall y, y ∈ timers w' <-> tid y <> t /\ y ∈ timers w).
Proof.
  intros HI Hs Ht Hp Hc w'.
  pose proof (Inv_handleMessage r is_alive_response w HI) as HI'.
  fold w' in HI'. subst w'. revert HI'. unfold handleMessage. simpl.
  rewrite Ht. intros HI'.
  split; [reflexivity|]. split; [reflexivity|]. split; [|split].
  - apply (pending_clearTimeout t (W.emit (Debug "is_alive_response") w)).
  - by apply liveness_timers_None.
  - intros y.
    apply (elem_of_clearTimeout y t (W.emit (Debug "is_alive_response") w)).
Qed.

Lemma C6_liveness_round_trip_witness :
  socketStatus (store Sample.w_unreachable) = connecting_python
  /\ liveness_timers Sample.w_unreachable <> []
  /\ let w' := handleMessage Sample.r_connected
                 is_alive_response Sample.w_unreachable in
     socketStatus (store w') = connected
     /\ pythonDisconnectedTimeout w' = None
     /\ pending 2 w' = None
     /\ liveness_timers w' = []
     /\ (forall y, y ∈ timers w' <->
                   tid y <> 2%nat /\ y ∈ timers Sample.w_unreachable).
Proof.
  split; [reflexivity|]. split; [vm_compute; discriminate|].
  apply (C6_liveness_round_trip Sample.r_connected
           Sample.w_unreachable 2
           {| tid := 2; due := 41000; period := None;
              callback := CbPythonDisconnected |}).
  - apply Inv_reachable, reachable_w_unreachable.
  - reflexivity.
  - reflexivity.
  - reflexivity.
  - reflexivity.
Defined.

(** C7. [connect()] with the socket open returns the world as it was: no
    socket is created, the status and the execution states are the same. *)
Theorem C7_connect_open_noop r w :
  instance_readyState w = Some OPEN -> connect r w = w.
Proof.
  intros Ho. unfold connect. destruct (project r); [|reflexivity].
  unfold instance_open. by rewrite bool_decide_eq_true_2.
Qed.

Lemma C7_connect_open_noop_witness :
  instance_readyState Sample.w_connected = Some OPEN
  /\ connect (Sample.r_connected) Sample.w_connected
     = Sample.w_connected.
Proof.
  split; [reflexivity|].
  apply (C7_connect_open_noop Sample.r_connected Sample.w_connected).
  reflexivity.
Defined.

(** C8. With the socket open [sendMessage] appends the event to the
    frames sent on it and changes nothing else; otherwise the only change
    is one [console.error] line: nothing is sent, no timer is set, no
    toast is raised, module variables and store are as before. *)
Theorem C8_sendMessage event w :
  (instance_readyState w = Some OPEN ->
   exists sid s,
     socketInstance w = Some sid /\ sockets w !! sid = Some s
     /\ readyState s = OPEN
     /\ sendMessage event w
        = W.set_sockets (<[sid := with_sent (sent s ++ [event]) s]> (sockets w))
            w)
  /\ (instance_readyState w <> Some OPEN ->
      sendMessage event w
      = W.emit
          (ConsoleError "Cannot send message: WebSocket is not connected") w).
Proof.
  unfold sendMessage, instance_open. split; intros Ho.
  - rewrite bool_decide_eq_true_2 by done.
    unfold instance_readyState in Ho.
    destruct (socketInstance w) as [sid|]; [|done]. simpl in Ho.
    destruct (sockets w !! sid) as [s|] eqn:Es; [|done]. simpl in Ho.
    exists sid, s. split; [done|]. split; [done|]. split; [congruence|].
    unfold send, on_socket. by rewrite Es.
  - by rewrite bool_decide_eq_false_2.
Qed.

Lemma C8_sendMessage_witness :
  (exists sid s,
      socketInstance Sample.w_connected = Some sid
      /\ sockets Sample.w_connected !! sid = Some s
      /\ readyState s = OPEN
      /\ sendMessage is_alive Sample.w_connected
         = W.set_sockets
             (<[sid := with_sent (sent s ++ [is_alive]) s]>
                (sockets Sample.w_connected))
             Sample.w_connected)
  /\ sendMessage is_alive (init (Sample.store0 disconnected) 0)
     = W.emit
         (ConsoleError "Cannot send message: WebSocket is not connected")
         (init (Sample.store0 disconnected) 0).
Proof.
  split.
  - apply (proj1 (C8_sendMessage is_alive Sample.w_connected)).
    reflexivity.
  - apply (proj2 (C8_sendMessage is_alive
                    (init (Sample.store0 disconnected) 0))).
    vm_compute. discriminate.
Defined.



(** C10. [is_alive_response] sets the status to [connected] from any
    world, whatever the status was and whether or not the socket instance
    is open; and a reachable world shows the direct move from
    [disconnected], with the socket instance closed, to [connected] in one
    step. *)
Theorem C10_is_alive_response_unconditional :
  (forall r w,
      socketStatus (store (handleMessage r is_alive_response w)) = connected)
  /\ (exists w w',
        reachable w /\ step w w'
        /\ socketStatus (store w) = disconnected
        /\ instance_readyState w = Some CLOSED
        /\ socketStatus (store w') = connected).
Proof.
  split; [reflexivity|].
  exists Sample.w_second_lost.
  exists (deliver 0 (EvMessage is_alive_response) Sample.w_second_lost).
  split; [|split; [|split; [|split]]].
  - eapply reachable_step;
      [|apply (step_deliver 1 EvClose); vm_compute; reflexivity].
    eapply reachable_step;
      [|apply (step_deliver 0 EvOpen); vm_compute; reflexivity].
    eapply reachable_step; [|apply step_connect].
    eapply reachable_step; [|apply step_connect].
    eapply reachable_step; [|apply (step_render 0 (Some "project_1"))].
    exists (Sample.store0 disconnected), 1000. apply rtc_refl.
  - apply step_deliver. vm_compute; reflexivity.
  - vm_compute; reflexivity.
  - vm_compute; reflexivity.
  - vm_compute; reflexivity.
Qed.

End Claims.

(** * Further properties of the socket client *)

Module Extras.

Import StoreOps Browser SocketClient Scenario Facts.

(** *** JavaScript strings *)

Lemma toLowerCase_app (a b : string) :
  JS.toLowerCase (a +:+ b)
  = (JS.toLowerCase a +:+ JS.toLowerCase b).
Proof. induction a as [|c a IH]; simpl; [done|]. by rewrite IH. Qed.

Lemma toLowerCase_split (m u v : string) :
  JS.toLowerCase m = (u +:+ v) ->
  exists m1 m2, m = (m1 +:+ m2)
                /\ JS.toLowerCase m1 = u /\ JS.toLowerCase m2 = v.
Proof.
  revert m. induction u as [|c u IH]; intros m Hm.
  - exists EmptyString, m. by repeat split.
  - destruct m as [|d m]; simpl in Hm; [done|].
    injection Hm as Hc Hm. destruct (IH m Hm) as (m1 & m2 & -> & H1 & H2).
    exists (String d m1), m2. simpl. by rewrite Hc, H1, H2.
Qed.

Lemma prefix_app (sub b : string) : String.prefix sub (sub +:+ b) = true.
Proof.
  induction sub as [|c sub IH]; simpl; [by destruct b|].
  destruct (ascii_dec c c); [exact IH|done].
Qed.

Lemma prefix_inv (sub s : string) :
  String.prefix sub s = true -> exists b, s = (sub +:+ b).
Proof.
  revert s. induction sub as [|c sub IH]; intros s Hs.
  - by exists s.
  - destruct s as [|d s]; simpl in Hs; [done|].
    destruct (ascii_dec c d) as [->|]; [|done].
    destruct (IH s Hs) as [b ->]. by exists b.
Qed.

(** [s.includes(sub)] holds exactly when [sub] occurs in [s]. *)
Lemma includes_spec (s sub : string) :
  JS.includes s sub = true <-> exists a b, s = (a +:+ sub +:+ b).
Proof.
  split.
  - induction s as [|c s IH]; cbn [JS.includes]; intros H.
    + rewrite orb_false_r in H. apply prefix_inv in H as [b ->].
      by exists EmptyString, b.
    + apply orb_true_iff in H as [H|H].
      * apply prefix_inv in H as [b ->]. by exists EmptyString, b.
      * destruct (IH H) as (a & b & ->). by exists (String c a), b.
  - intros (a & b & ->). induction a as [|c a IH].
    + change (EmptyString +:+ sub +:+ b) with (sub +:+ b).
      destruct (sub +:+ b) eqn:E; cbn [JS.includes];
        rewrite <- E, prefix_app; reflexivity.
    + change (String c a +:+ sub +:+ b) with (String c (a +:+ sub +:+ b)).
      cbn [JS.includes]. rewrite IH. by rewrite orb_true_r.
Qed.

(** The case-insensitive test of the source: the lower-cased message
    contains [sub] exactly when the message contains a spelling of it. *)
Lemma opt_lower_includes_spec (message : option string) (sub : string) :
  JS.opt_lower_includes message sub = true
  <-> exists a x b, message = Some (a +:+ x +:+ b)
                    /\ JS.toLowerCase x = sub.
Proof.
  destruct message as [m|]; simpl.
  - rewrite includes_spec. split.
    + intros (a' & b' & H).
      apply toLowerCase_split in H as (a & m2 & -> & _ & H).
      apply toLowerCase_split in H as (x & b & -> & Hx & _).
      by exists a, x, b.
    + intros (a & x & b & [= ->] & <-).
      exists (JS.toLowerCase a), (JS.toLowerCase b).
      by rewrite !toLowerCase_app.
  - split; [done|]. by intros (a & x & b & ? & _).
Qed.

Lemma slice0_length (n : nat) (s : string) :
  (String.length (JS.slice0 n s) <= n)%nat.
Proof.
  unfold JS.slice0. revert s. induction n as [|n IH]; intros [|c s]; simpl;
    try lia. specialize (IH s). lia.
Qed.

Lemma slice0_prefix (n : nat) (s : string) :
  exists rest, s = (JS.slice0 n s +:+ rest).
Proof.
  unfold JS.slice0. revert s. induction n as [|n IH]; intros [|c s]; simpl.
  - by exists EmptyString.
  - by exists (String c s).
  - by exists EmptyString.
  - destruct (IH s) as [rest H]. exists rest.
    change (String c s = String c (substring 0 n s +:+ rest)). by f_equal.
Qed.

(** X1. [alertOnError] raises exactly one toast and changes nothing else.
    It is the informational "Stopped" toast (3 s) exactly when the message
    contains "stopped" or "interrupted" in some letter case, and the
    "Error" toast (5 s) otherwise, in particular for an undefined message.
    The description is undefined for an undefined message and, for a
    message of ASCII characters, the message cut to its first 140
    characters; nothing is said about the description of a message with
    other characters. *)
Theorem X1_alertOnError_classification message w :
  let stopped :=
    exists a x b, message = Some (a +:+ x +:+ b)
                  /\ (JS.toLowerCase x = "stopped"
                      \/ JS.toLowerCase x = "interrupted") in
  (stopped ->
   exists d,
     alertOnError message w = W.emit (Toast "Stopped" d "info" 3000) w
     /\ describes message d)
  /\ (~ stopped ->
      exists d,
        alertOnError message w = W.emit (Toast "Error" d "error" 5000) w
        /\ describes message d)
  /\ (forall m, ascii_only m = true ->
        (String.length (JS.slice0 140 m) <= 140)%nat
        /\ exists rest, m = (JS.slice0 140 m +:+ rest)).
Proof.
  intros stopped.
  assert (Hiff : (JS.opt_lower_includes message "stopped"
                  || JS.opt_lower_includes message "interrupted")%bool = true
                 <-> stopped).
  { rewrite orb_true_iff, !opt_lower_includes_spec. subst stopped. split.
    - intros [(a & x & b & ? & ?)|(a & x & b & ? & ?)]; exists a, x, b; auto.
    - intros (a & x & b & ? & [?|?]); [left|right]; by exists a, x, b. }
  assert (Hd : describes message (JS.slice0 140 <$> message)).
  { split; [by intros ->|]. by intros m -> _. }
  unfold alertOnError. split; [|split].
  - intros H. apply Hiff in H. rewrite H. by eexists.
  - intros H. destruct (_ || _)%bool eqn:E; [|by eexists].
    destruct H. by apply Hiff.
  - intros m _. split; [apply slice0_length|apply slice0_prefix].
Qed.

Lemma X1_alertOnError_classification_witness :
  alertOnError (Some "Execution was STOPPED by the user")
    (init (Sample.store0 connected) 0)
  = W.emit
      (Toast "Stopped" (Some "Execution was STOPPED by the user") "info"
         3000)
      (init (Sample.store0 connected) 0)
  /\ alertOnError None (init (Sample.store0 connected) 0)
     = W.emit (Toast "Error" None "error" 5000)
         (init (Sample.store0 connected) 0).
Proof.
  split.
  - destruct (proj1 (X1_alertOnError_classification
                       (Some "Execution was STOPPED by the user")
                       (init (Sample.store0 connected) 0)))
      as (d & E & _ & Hd).
    + exists "Execution was ", "STOPPED", " by the user".
      split; [reflexivity|]. left. reflexivity.
    + rewrite E. by rewrite (Hd _ eq_refl eq_refl).
  - destruct (proj1 (proj2 (X1_alertOnError_classification None
                       (init (Sample.store0 connected) 0))))
      as (d & E & Hd & _).
    + by intros (a & x & b & ? & _).
    + rewrite E. by rewrite (Hd eq_refl).
Defined.

(** *** The dispatcher as a whole *)

Lemma stopWorkflowIfRunning_socketStatus m w :
  socketStatus (store (stopWorkflowIfRunning m w)) = socketStatus (store w).
Proof. unfold stopWorkflowIfRunning. by rewrite stop_nodes_socketStatus. Qed.

(** Unfold the dispatcher and its helpers down to store and log writes. *)
Ltac dispatch :=
  unfold handleMessage, alertOnComponent, alertOnError,
    checkIfUnreachableErrorMessage, setTimeout;
  repeat match goal with
         | |- context [if ?b then _ else _] => destruct b eqn:?
         | |- context [match ?o with Some _ => _ | None => _ end] =>
             destruct o eqn:?
         end;
  try rewrite stopWorkflowIfRunning_store.

(** X3. The dispatcher never touches the transport or the retry timer:
    whatever the message, the sockets, the socket instance, the retry ref
    cells, the attachment counter, the probe timestamp and the clock are
    unchanged; the only timers it adds are results-panel requests, and the
    only timer it removes is the liveness timeout, on
    [is_alive_response]. *)
Theorem X3_dispatcher_leaves_transport_alone r msg w :
  let w' := handleMessage r msg w in
  sockets w' = sockets w
  /\ socketInstance w' = socketInstance w
  /\ reconnectTimeoutRef w' = reconnectTimeoutRef w
  /\ instances w' = instances w
  /\ lastIsAliveCallTimestamp w' = lastIsAliveCallTimestamp w
  /\ now w' = now w
  /\ (forall x, x ∈ timers w' ->
        x ∈ timers w \/ exists panel, callback x = CbOpenResultsPanel panel)
  /\ (forall x, x ∈ timers w -> x ∉ timers w' ->
        msg = is_alive_response
        /\ pythonDisconnectedTimeout w = Some (tid x)).
Proof.
  cbv zeta. destruct msg; dispatch; wsimpl.
  all: repeat (split; [reflexivity|]).
  all: try (split; [by left|by intros x Hx Hn]).
  2-5: simpl; split;
    [intros x Hx; apply elem_of_app in Hx as [Hx|Hx]; [by left|];
     apply list_elem_of_singleton in Hx; subst x; right; by eexists
    |intros x Hx Hn; destruct Hn; apply elem_of_app; by left].
  match goal with H : pythonDisconnectedTimeout _ = Some _ |- _ =>
    simpl in H; rewrite H end.
  split.
  - intros x Hx. left. rewrite list_elem_of_filter in Hx. tauto.
  - intros x Hx Hn. split; [done|]. f_equal.
    destruct (decide (tid x = n)) as [|Hne]; [done|]. destruct Hn.
    rewrite list_elem_of_filter. split; [|done].
    unfold is_timer. by rewrite negb_True, bool_decide_spec.
Qed.

(** X2. Apart from [is_alive_response], the dispatcher changes the
    connection status in one way only: to [connecting-python], when the
    closure saw [connected] and the message of a component error or of a
    top-level [error] contains "runtime is unreachable" in some letter
    case. In every other case the status is left as it was; the test reads
    the status the closure captured, not the one in the store. *)
Theorem X2_dispatcher_status r msg w :
  msg <> is_alive_response ->
  let demoted :=
    r_socketStatus r = connected
    /\ exists a x b, reported_error msg = Some (a +:+ x +:+ b)
                     /\ JS.toLowerCase x = "runtime is unreachable" in
  (demoted ->
   socketStatus (store (handleMessage r msg w)) = connecting_python)
  /\ (~ demoted ->
      socketStatus (store (handleMessage r msg w)) = socketStatus (store w)).
Proof.
  intros Hmsg demoted.
  set (c := (bool_decide (r_socketStatus r = connected)
             && JS.opt_lower_includes (reported_error msg)
                  "runtime is unreachable")%bool).
  assert (Hc : c = true <-> demoted).
  { subst c demoted. rewrite andb_true_iff, bool_decide_eq_true.
    by rewrite opt_lower_includes_spec. }
  assert (Hs : socketStatus (store (handleMessage r msg w))
               = if c then connecting_python else socketStatus (store w)).
  { subst c. clear Hc demoted. unfold reported_error.
    destruct msg; try done; dispatch;
      rewrite ?andb_false_r in *; simpl;
      rewrite ?stopWorkflowIfRunning_socketStatus; try done.
    all: unfold alertOnError; repeat case_match; try done. }
  rewrite Hs. split; intros H.
  - apply Hc in H. by rewrite H.
  - destruct c; [|done]. destruct H. by apply Hc.
Qed.

Lemma X2_dispatcher_status_witness :
  socketStatus
    (store (handleMessage Sample.r_connected
              (error_event (Some "Python Runtime Is Unreachable right now"))
              Sample.w_connected)) = connecting_python
  /\ socketStatus
       (store (handleMessage Sample.r_connected
                 (error_event (Some "out of memory")) Sample.w_connected))
     = connected.
Proof.
  split.
  - apply (X2_dispatcher_status Sample.r_connected
             (error_event (Some "Python Runtime Is Unreachable right now"))
             Sample.w_connected); [done|].
    split; [reflexivity|].
    exists "Python ", "Runtime Is Unreachable", " right now". by split.
  - apply (X2_dispatcher_status Sample.r_connected
             (error_event (Some "out of memory")) Sample.w_connected);
      [done|].
    intros [_ H]. apply opt_lower_includes_spec in H. vm_compute in H.
    discriminate.
Defined.

Lemma stopWorkflowIfRunning_log m w : log (stopWorkflowIfRunning m w) = log w.
Proof. by rewrite stopWorkflowIfRunning_store. Qed.

(** X4. One message raises at most one toast: exactly one for a workflow,
    evaluation or optimization state change with status [error], for a
    top-level [error] and for an unknown message type; none for any other
    message (a component error raises the component alert instead). *)
Theorem X4_one_toast_per_message r msg w :
  toasts (handleMessage r msg w)
  = (toasts w + if raises_toast msg then 1 else 0)%nat.
Proof.
  unfold toasts, raises_toast.
  destruct msg; dispatch; wsimpl; simpl;
    rewrite ?stopWorkflowIfRunning_log; wsimpl; simpl;
    rewrite ?filter_app, ?length_app; simpl; try lia.
  all: unfold alertOnError; repeat case_match; wsimpl;
    rewrite ?filter_app, ?length_app; simpl; lia.
Qed.

(** X5. An [evaluation_state_change] with status [error] leaves the
    optimization slot, the workflow execution state and the nodes alone.
    If the previous evaluation state was [waiting] no timer is set;
    otherwise a timeout is set that cannot fire before 500 ms and, when it
    fires, requests the "evaluations" results panel and is gone. *)
Theorem X5_evaluation_error_opens_results r rs w :
  Inv w ->
  run_status_of rs = Some Error ->
  let previous := evaluation (state (workflow (store w))) in
  let w' := handleMessage r (evaluation_state_change rs) w in
  let t := next_timer w in
  optimization (state (workflow (store w')))
  = optimization (state (workflow (store w)))
  /\ execution (state (workflow (store w')))
     = execution (state (workflow (store w)))
  /\ nodes (workflow (store w')) = nodes (workflow (store w))
  /\ (run_status_of previous = Some Waiting -> timers w' = timers w)
  /\ (run_status_of previous <> Some Waiting ->
      pending t w'
      = Some {| tid := t; due := now w + 500; period := None;
                callback := CbOpenResultsPanel "evaluations" |}
      /\ (forall dt, 0 <= dt < 500 -> fire_timer t (elapse dt w') = None)
      /\ exists w'',
          fire_timer t (elapse 500 w') = Some w''
          /\ openResultsPanelRequest (store w'') = Some "evaluations"
          /\ evaluation (state (workflow (store w''))) = rs
          /\ pending t w'' = None).
Proof.
  intros HI He previous w' t. subst w' previous. unfold handleMessage.
  rewrite (bool_decide_eq_true_2 _ He).
  set (w2 := alertOnError _ _).
  assert (H2 : tstate w2 = tstate w /\ now w2 = now w
               /\ store w2
                  = setEvaluationState rs (store w)).
  { subst w2. unfold alertOnError. by destruct (_ || _)%bool. }
  destruct H2 as (Ht & Hn & Hst).
  apply tstate_inv in Ht as (Htm & Hnt & _ & _).
  unfold getWorkflow. case_bool_decide as Hw.
  - rewrite Hst, Htm. repeat split; try done.
  - unfold setTimeout.
    change (store (add_timer ?a ?b ?c w2).2) with (store w2).
    rewrite Hst. do 3 (split; [done|]). split; [done|]. intros _.
    subst t. rewrite <- Hnt.
    assert (Hp : pending (next_timer w2)
                   (snd (add_timer None (CbOpenResultsPanel "evaluations")
                           500 w2))
                 = Some {| tid := next_timer w2; due := now w + 500;
                           period := None;
                           callback := CbOpenResultsPanel "evaluations" |}).
    { unfold pending. simpl. rewrite find_app_r.
      - simpl. unfold is_timer. simpl.
        by rewrite bool_decide_eq_true_2, Hn.
      - rewrite Htm, Hnt. apply (pending_fresh w HI). }
    split; [exact Hp|]. split.
    + intros dt Hdt. unfold fire_timer.
      change (pending ?a (elapse dt ?b)) with (pending a b).
      rewrite Hp. simpl. rewrite Hn.
      destruct (Z.leb_spec (now w + 500) (now w + dt)); [lia|done].
    + unfold fire_timer.
      change (pending ?a (elapse 500 ?b)) with (pending a b).
      rewrite Hp. simpl. rewrite Hn, Z.leb_refl.
      eexists. split; [reflexivity|]. simpl. rewrite Hst.
      repeat split; try done.
      apply (pending_clearTimeout (next_timer w2)).
Qed.

Lemma X5_evaluation_error_opens_results_witness :
  let rs := Some {| run_status := Error; run_id := Some "run-2";
                    progress := Some 3; total := Some 10; stdout := None;
                    run_error := Some "boom" |} in
  let w' := handleMessage Sample.r_connected (evaluation_state_change rs)
              Sample.w_evaluating in
  pending (next_timer Sample.w_evaluating) w'
  = Some {| tid := next_timer Sample.w_evaluating;
            due := now Sample.w_evaluating + 500; period := None;
            callback := CbOpenResultsPanel "evaluations" |}.
Proof.
  intros rs w'.
  destruct (X5_evaluation_error_opens_results Sample.r_connected rs
              Sample.w_evaluating) as (_ & _ & _ & _ & H).
  - apply Inv_deliver, Inv_reachable, reachable_w_connected.
  - reflexivity.
  - apply H. vm_compute. discriminate.
Defined.

(** X6. A [component_state_change] never changes the workflow-level
    states. It either leaves the selection alone or selects the component
    and expands the properties panel; it leaves the selection alone
    whenever the playground is open, the new status is [running], the
    component was already [success], or the workflow is running and its
    [until_node_id] is not this component. *)
Theorem X6_component_selection r component_id es w :
  let previous :=
    n ← find_node component_id (nodes (workflow (store w)));
    execution_state (data n) in
  let exec := execution (state (workflow (store w))) in
  let w' := handleMessage r (component_state_change component_id es) w in
  state (workflow (store w')) = state (workflow (store w))
  /\ ((selectedNode (store w') = selectedNode (store w)
       /\ propertiesExpanded (store w') = propertiesExpanded (store w))
      \/ (selectedNode (store w') = Some component_id
          /\ propertiesExpanded (store w') = true))
  /\ (r_playgroundOpen r = true
      \/ status_of es = Some Running
      \/ status_of previous = Some Success
      \/ (status_of exec = Some Running
          /\ exec ≫= until_node_id <> Some component_id) ->
      selectedNode (store w') = selectedNode (store w)
      /\ propertiesExpanded (store w') = propertiesExpanded (store w)).
Proof.
  cbv zeta. unfold handleMessage, alertOnComponent,
    checkIfUnreachableErrorMessage.
  set (previous := n ← find_node component_id _; execution_state (data n)).
  assert (Hexec : forall b : bool,
    execution (state (getWorkflow (store
      (if bool_decide (status_of es = Some Error)
       then W.emit (AlertOnComponent component_id es)
              (if b then setSocketStatus connecting_python
                           (W.on_store
                              (setComponentExecutionState component_id es)
                              (W.emit (Debug "component_state_change") w))
               else W.on_store (setComponentExecutionState component_id es)
                      (W.emit (Debug "component_state_change") w))
       else W.on_store (setComponentExecutionState component_id es)
              (W.emit (Debug "component_state_change") w)))))
    = execution (state (workflow (store w)))).
  { intros b. destruct (bool_decide _), b; reflexivity. }
  simpl event_type. rewrite Hexec.
  set (exec := execution (state (workflow (store w)))).
  split; [|split].
  - repeat case_match; reflexivity.
  - repeat case_match; auto.
  - intros H.
    match goal with
    | |- context [if ?c then _ else _] =>
        assert (Hc : c = false); [|rewrite Hc]
    end.
    { destruct H as [H|[H|[H|[H1 H2]]]].
      - by rewrite H.
      - rewrite (bool_decide_eq_true_2 _ H). simpl. by rewrite andb_false_r.
      - rewrite (bool_decide_eq_true_2 _ H). simpl.
        by rewrite !andb_false_r.
      - rewrite (bool_decide_eq_true_2 _ H1), (bool_decide_eq_false_2 _ H2).
        simpl. by rewrite !andb_false_r. }
    repeat case_match; done.
Qed.

(** *** The cascade, node by node *)

Lemma NoDup_fmap_eq {A B} (f : A -> B) (l : list A) x y :
  NoDup (f <$> l) -> x ∈ l -> y ∈ l -> f x = f y -> x = y.
Proof.
  induction l as [|a l IH]; intros Hnd Hx Hy Hf.
  - by apply not_elem_of_nil in Hx.
  - rewrite fmap_cons in Hnd. apply NoDup_cons in Hnd as [Ha Hnd].
    apply elem_of_cons in Hx as [->|Hx], Hy as [->|Hy]; try done.
    + destruct Ha. rewrite Hf. by apply list_elem_of_fmap_2.
    + destruct Ha. rewrite <- Hf. by apply list_elem_of_fmap_2.
    + by apply IH.
Qed.

Lemma cascaded_unique (l : list Node) es n :
  NoDup (id <$> l) -> n ∈ l -> cascaded l es n = stop_if_running es n.
Proof.
  intros Hnd Hn. unfold cascaded, stop_if_running.
  assert (E : existsb (fun k => has_id (id k) n && is_running k)%bool l
              = is_running n); [|by rewrite E].
  apply eq_true_iff_eq. rewrite existsb_exists. split.
  - intros (k & Hk & Hb). apply andb_true_iff in Hb as [Hid Hr].
    unfold has_id in Hid. apply bool_decide_eq_true in Hid.
    apply list_elem_of_In in Hk.
    by rewrite (NoDup_fmap_eq id l n k Hnd Hn Hk Hid).
  - intros Hr. exists n. split; [by apply list_elem_of_In|].
    rewrite Hr, andb_true_r. unfold has_id. by apply bool_decide_eq_true.
Qed.

(** X7. With distinct node ids, [stopWorkflowIfRunning] rewrites exactly
    the running nodes: every node that is not running keeps its state
    (idle, waiting and finished components are not forced to [error]).
    The workflow execution state becomes the error state whatever it was,
    and the evaluation and optimization slots are untouched. *)
Theorem X7_cascade_only_running message w :
  NoDup (id <$> nodes (workflow (store w))) ->
  let stopped :=
    Some {| status := Error; error := message;
            timestamps := {| finished_at := Some (now w) |};
            until_node_id := None |} in
  let w' := stopWorkflowIfRunning message w in
  nodes (workflow (store w'))
  = stop_if_running stopped <$> nodes (workflow (store w))
  /\ execution (state (workflow (store w'))) = stopped
  /\ evaluation (state (workflow (store w')))
     = evaluation (state (workflow (store w)))
  /\ optimization (state (workflow (store w')))
     = optimization (state (workflow (store w))).
Proof.
  intros Hnd stopped w'. subst w'. split.
  - rewrite stopWorkflowIfRunning_nodes. apply list_fmap_ext.
    intros i n Hn. apply cascaded_unique; [done|].
    by eapply list_elem_of_lookup_2.
  - unfold stopWorkflowIfRunning. by rewrite stop_nodes_state.
Qed.

Lemma X7_cascade_only_running_witness :
  nodes (workflow (store (stopWorkflowIfRunning (Some "boom")
                            Sample.w_connected)))
  = [Sample.node "entry" (Sample.st Success);
     Sample.node "llm"
       (Some {| status := Error; error := Some "boom";
                timestamps := {| finished_at := Some 1000 |};
                until_node_id := None |});
     Sample.node "end" None;
     Sample.node "eval"
       (Some {| status := Error; error := Some "boom";
                timestamps := {| finished_at := Some 1000 |};
                until_node_id := None |})].
Proof.
  destruct (X7_cascade_only_running (Some "boom") Sample.w_connected)
    as [H _].
  - apply (bool_decide_unpack _). vm_compute. exact I.
  - rewrite H. reflexivity.
Defined.

(** *** The liveness timeout *)

(** X8. In every reachable world at most one liveness timeout is
    pending. *)
Theorem X8_at_most_one_liveness_timeout w :
  reachable w -> (length (liveness_timers w) <= 1)%nat.
Proof.
  intros Hr. pose proof (Inv_reachable w Hr) as HI.
  assert (Hsame : forall x, x ∈ liveness_timers w ->
                            pythonDisconnectedTimeout w = Some (tid x)).
  { intros x Hx. apply list_elem_of_filter in Hx as [Hl Hx].
    unfold is_liveness in Hl. destruct (callback x) eqn:Ec; try done.
    by apply (inv_liveness w HI). }
  assert (Hnd : NoDup (tid <$> liveness_timers w)).
  { eapply sublist_NoDup; [apply (inv_nodup w HI)|].
    apply fmap_sublist, sublist_filter. }
  destruct (liveness_timers w) as [|x [|y l]]; simpl; [lia..|].
  exfalso.
  pose proof (Hsame x ltac:(left)) as Hx.
  pose proof (Hsame y ltac:(right; left)) as Hy.
  rewrite Hx in Hy. injection Hy as Hxy.
  rewrite !fmap_cons, Hxy in Hnd.
  apply NoDup_cons in Hnd as [Hnd _]. apply Hnd. left.
Qed.

Lemma X8_at_most_one_liveness_timeout_witness :
  length (liveness_timers Sample.w_probing) = 1%nat
  /\ (length (liveness_timers Sample.w_probing) <= 1)%nat.
Proof.
  split; [reflexivity|].
  apply (X8_at_most_one_liveness_timeout Sample.w_probing).
  apply reachable_w_probing.
Defined.

Lemma sendMessage_open e w :
  instance_readyState w = Some OPEN ->
  exists sid s,
    socketInstance w = Some sid /\ sockets w !! sid = Some s
    /\ readyState s = OPEN
    /\ sendMessage e w
       = W.set_sockets (<[sid := with_sent (sent s ++ [e]) s]> (sockets w)) w.
Proof.
  intros Ho. unfold sendMessage, instance_open.
  rewrite bool_decide_eq_true_2 by done.
  unfold instance_readyState in Ho.
  destruct (socketInstance w) as [sid|]; [|done]. simpl in Ho.
  destruct (sockets w !! sid) as [s|] eqn:Es; [|done]. simpl in Ho.
  exists sid, s. split; [done|]. split; [done|]. split; [congruence|].
  unfold send, on_socket. by rewrite Es.
Qed.

(** X9 (liveness timeout). A probe made by the newest render that saw
    [connected], with the socket open and no timeout armed, sends
    [is_alive] (the frame is appended to those sent on the socket
    instance, no other socket changes) and arms one 10-second timeout. A
    further probe arms
    nothing. The timeout cannot fire before 10 s; when it fires the status
    becomes [connecting-python], the sockets and the socket instance are
    untouched (the transport stays open), and [pythonDisconnectedTimeout]
    still holds the handle that fired. *)
Theorem X9_liveness_timeout r w :
  Inv w ->
  instanceId r = instances w ->
  r_socketStatus r = connected ->
  pythonDisconnectedTimeout w = None ->
  instance_readyState w = Some OPEN ->
  let t := next_timer w in
  let T := {| tid := t; due := now w + 10000; period := None;
              callback := CbPythonDisconnected |} in
  let w1 := isAlive r w in
  pythonDisconnectedTimeout w1 = Some t
  /\ timers w1 = timers w ++ [T]
  /\ liveness_timers w1 = [T]
  /\ frames_sent w1 = S (frames_sent w)
  /\ (exists sid s,
        socketInstance w = Some sid /\ sockets w !! sid = Some s
        /\ sockets w1
           = <[sid := with_sent (sent s ++ [is_alive]) s]> (sockets w))
  /\ (forall dt, timers (isAlive r (elapse dt w1)) = timers w1)
  /\ (forall dt, 0 <= dt < 10000 -> fire_timer t (elapse dt w1) = None)
  /\ exists w2,
      fire_timer t (elapse 10000 w1) = Some w2
      /\ socketStatus (store w2) = connecting_python
      /\ sockets w2 = sockets w1
      /\ socketInstance w2 = socketInstance w1
      /\ instance_readyState w2 = Some OPEN
      /\ pythonDisconnectedTimeout w2 = Some t
      /\ liveness_timers w2 = [].
Proof.
  intros HI Hf Hs Hpy Ho t T w1.
  destruct (sendMessage_open is_alive
              (W.set_lastIsAliveCallTimestamp (Date_now w) w) Ho)
    as (sid & s & Hi & Hsk & Hrs & Hsend).
  simpl in Hi, Hsk.
  assert (E1 : w1 = W.set_pythonDisconnectedTimeout (Some t)
                 (snd (add_timer None CbPythonDisconnected 10000
                         (sendMessage is_alive
                            (W.set_lastIsAliveCallTimestamp (Date_now w) w))))).
  { subst w1. unfold isAlive. rewrite bool_decide_eq_true_2 by done.
    rewrite (bool_decide_eq_true_2 _ Hs). rewrite Hsend. simpl.
    rewrite (bool_decide_eq_true_2 _ Hpy). reflexivity. }
  rewrite Hsend in E1. simpl in E1. fold t T in E1. clearbody w1. subst w1.
  assert (Hnone : filter is_liveness (timers w) = [])
    by by apply (liveness_timers_None w).
  assert (Hp : forall w', timers w' = timers w ++ [T] ->
                          pending t w' = Some T).
  { intros w' E. unfold pending. rewrite E, find_app_r.
    - simpl. unfold is_timer. simpl. by rewrite bool_decide_eq_true_2.
    - apply (pending_fresh w HI). }
  split; [done|]. split; [done|]. split.
  { unfold liveness_timers. simpl. rewrite filter_app, Hnone. reflexivity. }
  split.
  { unfold frames_sent. simpl.
    apply (sum_list_insert _ _ sid s); [done|].
    simpl. rewrite length_app. simpl. lia. }
  split.
  { exists sid, s. by repeat split. }
  split.
  { intros dt. unfold isAlive. simpl.
    rewrite bool_decide_eq_true_2 by done.
    match goal with
    | |- context [bool_decide (pythonDisconnectedTimeout ?x = None)] =>
        assert (Hx : tstate x = tstate (W.set_lastIsAliveCallTimestamp
                       (Date_now w + dt) (elapse dt
                         (W.set_pythonDisconnectedTimeout (Some t)
                            (W.set_next_timer (S t)
                               (W.set_timers (timers w ++ [T])
                                  (W.set_sockets
                                     (<[sid := with_sent
                                                 (sent s ++ [is_alive]) s]>
                                        (sockets w))
                                     (W.set_lastIsAliveCallTimestamp
                                        (Date_now w) w))))))))
          by apply tstate_sendMessage
    end.
    apply tstate_inv in Hx as (Htm & _ & _ & Hpy').
    rewrite Hpy'. simpl. rewrite andb_false_r. exact Htm. }
  split.
  { intros dt Hdt. unfold fire_timer.
    change (pending t (elapse dt ?x)) with (pending t x).
    erewrite Hp by reflexivity. simpl.
    destruct (Z.leb_spec (now w + 10000) (now w + dt)); [lia|done]. }
  unfold fire_timer.
  change (pending t (elapse 10000 ?x)) with (pending t x).
  erewrite Hp by reflexivity. simpl. rewrite Z.leb_refl.
  eexists. split; [reflexivity|]. simpl.
  split; [done|]. split; [done|]. split; [done|]. split.
  { unfold instance_readyState. simpl. rewrite Hi. simpl.
    rewrite list_lookup_insert_eq by by eapply lookup_lt_Some.
    simpl. by rewrite Hrs. }
  split; [done|].
  unfold liveness_timers. simpl. apply filter_none. intros x Hx Hl.
  apply list_elem_of_filter in Hx as [Hne Hx].
  unfold is_timer in Hne. rewrite negb_True, bool_decide_spec in Hne.
  apply elem_of_app in Hx as [Hx|Hx].
  - eapply filter_nil_not_elem_of; [exact Hnone|exact Hl|exact Hx].
  - apply list_elem_of_singleton in Hx. by subst x.
Qed.

Lemma X9_liveness_timeout_witness :
  let r := Sample.r_connected in
  let w1 := isAlive r Sample.w_connected in
  liveness_timers w1
  = [ {| tid := next_timer Sample.w_connected;
         due := now Sample.w_connected + 10000; period := None;
         callback := CbPythonDisconnected |} ]
  /\ sent <$> sockets w1 = [[is_alive]]
  /\ exists w2,
      fire_timer (next_timer Sample.w_connected) (elapse 10000 w1) = Some w2
      /\ socketStatus (store w2) = connecting_python
      /\ instance_readyState w2 = Some OPEN.
Proof.
  intros r w1.
  destruct (X9_liveness_timeout Sample.r_connected Sample.w_connected)
    as (_ & _ & H3 & _ & (sid & s & Hi & Hs & H5) & _ & _
        & w2 & F & S1 & _ & _ & S2 & _).
  - apply Inv_reachable, reachable_w_connected.
  - reflexivity.
  - reflexivity.
  - reflexivity.
  - reflexivity.
  - split; [exact H3|]. split.
    + subst w1 r. rewrite H5. vm_compute in Hi. injection Hi as <-.
      vm_compute in Hs. injection Hs as <-. reflexivity.
    + exists w2. by repeat split.
Defined.

(** *** Opening the transport *)

(** X10. [connect()] with a project and no open socket instance adds one
    socket in state [CONNECTING], bound to the calling render, makes it the
    instance and sets the status to [connecting-socket]; the sockets that
    existed are left as they were (a previous instance is not closed) and
    no timer is touched. When that socket opens the status becomes
    [connecting-python] and the probe timestamp is reset to 0; the
    workflow is untouched. *)
Theorem X10_connect_then_open r p w :
  project r = Some p ->
  instance_readyState w <> Some OPEN ->
  let sid := length (sockets w) in
  let w1 := connect r w in
  let w2 := deliver sid EvOpen w1 in
  socketInstance w1 = Some sid
  /\ sockets w1
     = sockets w ++ [ {| readyState := CONNECTING; ws_project := p;
                         handlers := r; onmessage := r; sent := [] |} ]
  /\ socketStatus (store w1) = connecting_socket
  /\ tstate w1 = tstate w
  /\ socketStatus (store w2) = connecting_python
  /\ instance_readyState w2 = Some OPEN
  /\ lastIsAliveCallTimestamp w2 = 0
  /\ workflow (store w2) = workflow (store w)
  /\ tstate w2 = tstate w.
Proof.
  intros Hp Hn sid w1 w2.
  assert (E1 : w1 = W.set_socketInstance (Some sid)
                 (snd (new_WebSocket p r
                         (setSocketStatus connecting_socket w)))).
  { subst w1. unfold connect, instance_open. rewrite Hp.
    by rewrite bool_decide_eq_false_2. }
  clearbody w1. subst w1. simpl.
  split; [done|]. split; [done|]. split; [done|]. split; [done|].
  subst w2. unfold deliver. simpl.
  rewrite lookup_app_r by done. rewrite Nat.sub_diag. simpl.
  unfold on_socket. simpl.
  rewrite lookup_app_r by done. rewrite Nat.sub_diag. simpl.
  unfold onopen, setSocketStatus_with, onopen_updater. simpl.
  split; [done|]. split; [|done].
  unfold instance_readyState. simpl.
  rewrite list_lookup_insert_eq by (rewrite length_app; simpl; lia).
  done.
Qed.

Lemma X10_connect_then_open_witness :
  let r := fst Sample.boot in
  let w := snd Sample.boot in
  socketStatus (store (connect r w)) = connecting_socket
  /\ socketStatus (store (deliver 0 EvOpen (connect r w)))
     = connecting_python.
Proof.
  intros r w.
  destruct (X10_connect_then_open (fst Sample.boot) "project_1"
              (snd Sample.boot))
    as (_ & _ & H3 & _ & H5 & _).
  - reflexivity.
  - vm_compute. discriminate.
  - exact (conj H3 H5).
Defined.

(** X11. The probe effect of the newest render that saw
    [connecting-python], with the socket open, sets a 5-second interval
    and arms no liveness timeout. When the last probe is more than 5 s old
    it probes at once: the frame [is_alive] is appended to those sent on
    the socket instance and the time is recorded. Otherwise it sends
    nothing: the sockets are unchanged. *)
Theorem X11_first_probe_while_connecting r w :
  instanceId r = instances w ->
  r_socketStatus r = connecting_python ->
  instance_readyState w = Some OPEN ->
  let t := next_timer w in
  let I := {| tid := t; due := now w + 5000; period := Some 5000;
              callback := CbIsAlive r |} in
  let w' := snd (livenessEffect r w) in
  fst (livenessEffect r w) = Some t
  /\ timers w' = timers w ++ [I]
  /\ pythonDisconnectedTimeout w' = pythonDisconnectedTimeout w
  /\ socketStatus (store w') = socketStatus (store w)
  /\ (5000 < now w - lastIsAliveCallTimestamp w ->
      frames_sent w' = S (frames_sent w)
      /\ lastIsAliveCallTimestamp w' = now w
      /\ exists sid s,
          socketInstance w = Some sid /\ sockets w !! sid = Some s
          /\ sockets w'
             = <[sid := with_sent (sent s ++ [is_alive]) s]> (sockets w))
  /\ (now w - lastIsAliveCallTimestamp w <= 5000 ->
      frames_sent w' = frames_sent w
      /\ lastIsAliveCallTimestamp w' = lastIsAliveCallTimestamp w
      /\ sockets w' = sockets w).
Proof.
  intros Hf Hs Ho t I w'. subst w'. unfold livenessEffect.
  rewrite bool_decide_eq_true_2 by done.
  rewrite (bool_decide_eq_true_2 _ Hs). unfold setInterval.
  cbn [fst snd add_timer andb]. fold t I.
  set (w1 := W.set_next_timer (S t) (W.set_timers (timers w ++ [I]) w)).
  unfold Date_now.
  change (now w1) with (now w).
  change (lastIsAliveCallTimestamp w1) with (lastIsAliveCallTimestamp w).
  destruct (Z.ltb_spec 5000 (now w - lastIsAliveCallTimestamp w)) as [Hl|Hl];
    cbn [fst snd].
  - assert (Ho1 : instance_readyState
                    (W.set_lastIsAliveCallTimestamp (Date_now w1) w1)
                  = Some OPEN) by exact Ho.
    destruct (sendMessage_open is_alive _ Ho1)
      as (sid & s & Hi & Hsk & Hrs & Hsend).
    unfold isAlive. rewrite bool_decide_eq_true_2 by done.
    rewrite Hs. cbn [bool_decide decide_rel andb]. simpl andb.
    rewrite Hsend. simpl.
    split; [done|]. split; [done|]. split; [done|]. split; [done|].
    split; [|intros; lia]. intros _. split; [|split; [done|]].
    + unfold frames_sent. simpl.
      apply (sum_list_insert _ _ sid s); [done|].
      simpl. rewrite length_app. simpl. lia.
    + exists sid, s. by repeat split.
  - split; [done|]. split; [done|]. split; [done|]. split; [done|].
    split; [intros; lia|]. done.
Qed.

Lemma X11_first_probe_while_connecting_witness :
  let r := fst Sample.render_open in
  sent <$> sockets (snd (livenessEffect r w_opened_late)) = [[is_alive]]
  /\ sockets (snd (livenessEffect r (snd Sample.render_open)))
     = sockets (snd Sample.render_open).
Proof.
  intros r. split.
  - destruct (X11_first_probe_while_connecting (fst Sample.render_open)
                w_opened_late) as (_ & _ & _ & _ & H & _);
      [reflexivity..|].
    destruct H as (_ & _ & sid & s & Hi & Hs & H); [vm_compute; reflexivity|].
    subst r. rewrite H. vm_compute in Hi. injection Hi as <-.
    vm_compute in Hs. injection Hs as <-. reflexivity.
  - destruct (X11_first_probe_while_connecting (fst Sample.render_open)
                (snd Sample.render_open)) as (_ & _ & _ & _ & _ & H);
      [reflexivity..|].
    destruct H as (_ & _ & H); [vm_compute; discriminate|]. exact H.
Defined.

(** *** The retry loop *)

Lemma retry_round_spec r p w sid s :
  Inv w ->
  socketInstance w = Some sid -> sockets w !! sid = Some s ->
  handlers s = r -> project r = Some p ->
  reconnectTimeoutRef w !! hook r = None ->
  exists w',
    retry_round (hook r) w = Some w'
    /\ Inv w'
    /\ socketInstance w' = Some (length (sockets w))
    /\ sockets w' !! length (sockets w)
       = Some {| readyState := CONNECTING; ws_project := p; handlers := r;
                 onmessage := r; sent := [] |}
    /\ length (sockets w') = S (length (sockets w))
    /\ now w' = now w + 5000
    /\ reconnectTimeoutRef w' !! hook r = None
    /\ socketStatus (store w') = connecting_socket
    /\ workflow (store w') = workflow (store w).
Proof.
  intros HI Hi Hs Hh Hp Href.
  assert (Hl : (sid < length (sockets w))%nat) by by eapply lookup_lt_Some.
  set (T := {| tid := next_timer w; due := now w + 5000; period := None;
               callback := CbReconnect r |}).
  assert (HI1 : Inv (elapse 5000 (deliver sid EvError w))).
  { eapply Inv_ext; [|by apply (Inv_deliver sid EvError)]. reflexivity. }
  assert (E0 : deliver sid EvError w
               = W.set_reconnectTimeoutRef
                   (<[hook r := next_timer w]> (reconnectTimeoutRef w))
                   (W.set_next_timer (S (next_timer w))
                      (W.set_timers (timers w ++ [T])
                         (setSocketStatus disconnected
                            (W.emit (ConsoleError "WebSocket error:")
                               (W.emit (Debug "Socket error, reconnecting")
                                  (W.set_sockets
                                     (<[sid := with_readyState CLOSED s]>
                                        (sockets w)) w))))))).
  { unfold deliver. rewrite Hs, Hh. unfold onerror, on_socket.
    rewrite Hs. unfold scheduleReconnect. wsimpl. rewrite Href.
    reflexivity. }
  unfold retry_round. rewrite Hi. simpl. rewrite E0 in HI1 |- *.
  unfold elapse in HI1 |- *. wsimpl.
  rewrite lookup_insert_eq. simpl.
  assert (Hfire : forall w0, timers w0 = timers w ++ [T] ->
            now w0 = now w + 5000 ->
            fire_timer (next_timer w) w0
            = Some (run_callback (CbReconnect r) (rearm T w0))).
  { intros w0 Ht Hn. unfold fire_timer, pending. rewrite Ht.
    rewrite find_app_r by apply (pending_fresh w HI).
    simpl. unfold is_timer at 1. simpl.
    rewrite bool_decide_eq_true_2 by done. simpl.
    by rewrite Hn, Z.leb_refl. }
  rewrite Hfire in * by reflexivity.
  eexists. split; [reflexivity|].
  split.
  { eapply (Inv_fire_timer (next_timer w)); [exact HI1|].
    by apply Hfire. }
  unfold run_callback, rearm. simpl period. cbv iota.
  unfold connect. rewrite Hp.
  rewrite (instance_open_closed sid (with_readyState CLOSED s)); try done.
  2:{ simpl. by apply list_lookup_insert_eq. }
  simpl. rewrite length_insert.
  split; [done|]. split.
  { rewrite lookup_app_r by (rewrite length_insert; lia).
    by rewrite length_insert, Nat.sub_diag. }
  split; [rewrite length_app, length_insert; simpl; lia|].
  split; [done|]. split; [by rewrite lookup_delete_eq|]. done.
Qed.

(** X12 (retries without end). With a project, every failed attempt is
    followed by a new one exactly five seconds later: after [n] rounds of
    "the socket instance fails, 5 s pass, the retry timer fires" there are
    [n] more sockets, the clock has moved by 5 [n] seconds (no back-off),
    no retry timer is left pending, the workflow is untouched, and the
    newest socket is connecting with status [connecting-socket]. *)
Theorem X12_retries_indefinitely r p w sid s :
  Inv w ->
  socketInstance w = Some sid -> sockets w !! sid = Some s ->
  handlers s = r -> project r = Some p ->
  reconnectTimeoutRef w !! hook r = None ->
  forall n, exists wn,
    retry_rounds n (hook r) w = Some wn
    /\ length (sockets wn) = (length (sockets w) + n)%nat
    /\ now wn = now w + Z.of_nat n * 5000
    /\ reconnect_timers (hook r) wn = []
    /\ workflow (store wn) = workflow (store w)
    /\ ((0 < n)%nat ->
        socketStatus (store wn) = connecting_socket
        /\ instance_readyState wn = Some CONNECTING).
Proof.
  intros HI Hi Hs Hh Hp Href n.
  assert (H : exists wn sidn sn,
    retry_rounds n (hook r) w = Some wn
    /\ Inv wn /\ socketInstance wn = Some sidn
    /\ sockets wn !! sidn = Some sn /\ handlers sn = r
    /\ reconnectTimeoutRef wn !! hook r = None
    /\ length (sockets wn) = (length (sockets w) + n)%nat
    /\ now wn = now w + Z.of_nat n * 5000
    /\ workflow (store wn) = workflow (store w)
    /\ ((0 < n)%nat ->
        socketStatus (store wn) = connecting_socket
        /\ readyState sn = CONNECTING)).
  { induction n as [|n IH].
    - exists w, sid, s. simpl.
      do 6 (split; [done|]). split; [lia|]. split; [lia|].
      split; [done|]. intros; lia.
    - destruct IH as (wn & sidn & sn & E & HIn & Hin & Hsn & Hhn & Hrn
                      & Hln & Hnn & Hwn & _).
      destruct (retry_round_spec r p wn sidn sn HIn Hin Hsn Hhn Hp Hrn)
        as (w' & E' & HI' & Hi' & Hs' & Hl' & Hn' & Hr' & Hst' & Hw').
      eexists w', _, _. simpl. rewrite E. simpl.
      split; [exact E'|]. split; [done|]. split; [exact Hi'|].
      split; [exact Hs'|]. split; [done|]. split; [done|].
      split; [lia|]. split; [lia|]. split; [congruence|]. done. }
  destruct H as (wn & sidn & sn & E & HIn & Hin & Hsn & Hhn & Hrn
                 & Hln & Hnn & Hwn & Hpos).
  exists wn. split; [done|]. split; [done|]. split; [done|].
  split; [by apply reconnect_timers_None|]. split; [done|].
  intros Hn. destruct (Hpos Hn) as [H1 H2]. split; [done|].
  unfold instance_readyState. rewrite Hin. simpl. rewrite Hsn. simpl.
  by rewrite H2.
Qed.

Lemma X12_retries_indefinitely_witness :
  exists w3,
    retry_rounds 3 0 Sample.w_connecting = Some w3
    /\ length (sockets w3) = 4%nat
    /\ now w3 = 1000 + 3 * 5000
    /\ reconnect_timers 0 w3 = [].
Proof.
  destruct (sockets Sample.w_connecting !! 0%nat) as [s|] eqn:Es;
    [|vm_compute in Es; discriminate].
  destruct (X12_retries_indefinitely (fst Sample.boot) "project_1"
              Sample.w_connecting 0 s) with (n := 3%nat)
    as (w3 & E & Hl & Hn & Hr & _).
  - apply Inv_reachable.
    eapply reachable_step; [|apply step_connect].
    eapply reachable_step; [|apply (step_render 0 (Some "project_1"))].
    exists (Sample.store0 disconnected), 1000. apply rtc_refl.
  - reflexivity.
  - exact Es.
  - vm_compute in Es. by injection Es as <-.
  - reflexivity.
  - reflexivity.
  - exists w3. by repeat split.
Defined.

(** *** Disconnecting *)

Lemma disconnect_facts r w sid s :
  socketInstance w = Some sid -> sockets w !! sid = Some s ->
  let w' := disconnect r w in
  socketInstance w' = None
  /\ sockets w'
     = <[sid := with_readyState (close_state (readyState s)) s]> (sockets w)
  /\ reconnectTimeoutRef w' !! hook r = None
  /\ next_timer w' = next_timer w /\ now w' = now w
  /\ socketStatus (store w') = disconnected
  /\ workflow (store w') = workflow (store w).
Proof.
  intros Hi Hs. cbv zeta. unfold disconnect. cbv zeta. wsimpl. rewrite Hi.
  unfold close, on_socket. wsimpl. rewrite Hs. wsimpl.
  destruct (reconnectTimeoutRef w !! hook r) eqn:Er; wsimpl;
    repeat split; try done.
  by rewrite lookup_delete_eq.
Qed.

(** X13. [disconnect()] does not stop the retry loop. The [close] event of
    the socket it closed finds no socket instance, so its handler sets the
    status to [disconnected] again and schedules a retry; five seconds
    later, with a project, [connect()] opens a new socket. *)
Theorem X13_close_after_disconnect_reconnects r w sid s :
  Inv w ->
  socketInstance w = Some sid -> sockets w !! sid = Some s ->
  hook (handlers s) = hook r ->
  let w1 := deliver sid EvClose (disconnect r w) in
  let t := next_timer w in
  socketInstance w1 = None
  /\ socketStatus (store w1) = disconnected
  /\ reconnectTimeoutRef w1 !! hook r = Some t
  /\ reconnect_timers (hook r) w1
     = [ {| tid := t; due := now w + 5000; period := None;
            callback := CbReconnect (handlers s) |} ]
  /\ forall p, project (handlers s) = Some p ->
       exists w2,
         fire_timer t (elapse 5000 w1) = Some w2
         /\ socketInstance w2 = Some (length (sockets w))
         /\ instance_readyState w2 = Some CONNECTING
         /\ socketStatus (store w2) = connecting_socket.
Proof.
  intros HI Hi Hs Hh w1 t.
  pose proof (Inv_disconnect r w HI) as HId.
  destruct (disconnect_facts r w sid s Hi Hs)
    as (D1 & D2 & D3 & D4 & D5 & D6 & D7).
  set (wd := disconnect r w) in *. clearbody wd.
  assert (Hl : (sid < length (sockets w))%nat) by by eapply lookup_lt_Some.
  set (s' := with_readyState (close_state (readyState s)) s) in *.
  assert (Hsd : sockets wd !! sid = Some s').
  { rewrite D2. by apply list_lookup_insert_eq. }
  set (T := {| tid := t; due := now w + 5000; period := None;
               callback := CbReconnect (handlers s) |}).
  assert (E1 : w1 = W.set_reconnectTimeoutRef
                 (<[hook r := t]> (reconnectTimeoutRef wd))
                 (W.set_next_timer (S t)
                    (W.set_timers (timers wd ++ [T])
                       (setSocketStatus disconnected
                          (W.emit (Debug "Socket closed, reconnecting")
                             (W.set_sockets
                                (<[sid := with_readyState CLOSED s']>
                                   (sockets wd)) wd)))))).
  { subst w1. unfold deliver. rewrite Hsd. unfold onclose, on_socket.
    rewrite Hsd. unfold instance_open, instance_readyState. wsimpl.
    rewrite D1. simpl. unfold scheduleReconnect. wsimpl.
    change (handlers s') with (handlers s). rewrite Hh, D3. simpl.
    by rewrite D4, D5. }
  clearbody w1. subst w1. wsimpl.
  assert (Hnone : filter (is_reconnect_of (hook r)) (timers wd) = [])
    by by apply (reconnect_timers_None (hook r) wd).
  split; [done|]. split; [done|]. split; [by rewrite lookup_insert_eq|].
  split.
  { unfold reconnect_timers. wsimpl. rewrite filter_app, Hnone. simpl.
    rewrite filter_cons_True; [done|]. unfold is_reconnect_of. simpl.
    by rewrite bool_decide_eq_true_2. }
  intros p Hp. unfold fire_timer, pending, elapse. wsimpl.
  rewrite find_app_r.
  2:{ subst t. rewrite <- D4. apply (pending_fresh wd HId). }
  simpl. unfold is_timer at 1. simpl.
  rewrite bool_decide_eq_true_2 by done. simpl.
  rewrite D5, Z.leb_refl. eexists. split; [reflexivity|].
  unfold connect. rewrite Hp. unfold instance_open, instance_readyState.
  simpl. rewrite D1. simpl. rewrite D2, !length_insert.
  split; [done|]. split; [|done].
  rewrite lookup_app_r by (rewrite !length_insert; lia).
  by rewrite !length_insert, Nat.sub_diag.
Qed.

Lemma X13_close_after_disconnect_reconnects_witness :
  let w1 := deliver 0 EvClose
              (disconnect Sample.r_connected Sample.w_connected) in
  socketInstance w1 = None
  /\ reconnectTimeoutRef w1 !! 0%nat = Some (next_timer Sample.w_connected).
Proof.
  destruct (sockets Sample.w_connected !! 0%nat) as [s|] eqn:Es;
    [|vm_compute in Es; discriminate].
  destruct (X13_close_after_disconnect_reconnects Sample.r_connected
              Sample.w_connected 0 s) as (H1 & _ & H3 & _).
  - apply Inv_reachable, reachable_w_connected.
  - reflexivity.
  - exact Es.
  - vm_compute in Es. by injection Es as <-.
  - exact (conj H1 H3).
Defined.

(** *** Superseded attachments and sockets *)

(** X14 (the attachment fence). The fence compares a closure's
    [instanceId] with the counter [instances] by value. In any world where
    they differ the closure is inert: its [isAlive], its rebind effect and
    its probe effect change nothing, and its interval, when it fires, only
    comes due again. A render increments the counter and passes the fence
    itself; every closure whose id is at most the old counter then fails
    it. Unmounting decrements the counter, so ids are not unique: once the
    newest render has unmounted, the closure that was newest before it
    passes the fence again, and a closure whose id is one above the
    counter passes the fence together with the next render. *)
Theorem X14_instance_fence :
  (forall r w,
      instanceId r <> instances w ->
      isAlive r w = w
      /\ rebindEffect r w = w
      /\ livenessEffect r w = (None, w)
      /\ forall x q,
           pending (tid x) w = Some x -> callback x = CbIsAlive r ->
           period x = Some q -> due x <= now w ->
           fire_timer (tid x) w = Some (rearm x w))
  /\ (forall r h p w,
        instanceId r <= instances w ->
        let r' := fst (useSocketClient h p w) in
        let w' := snd (useSocketClient h p w) in
        instanceId r' = instances w' /\ instanceId r <> instances w')
  /\ (forall r h p w,
        instanceId r = instances w ->
        instanceId r
        = instances (unmountCleanup (snd (useSocketClient h p w))))
  /\ (forall r h p w,
        instanceId r = instances w + 1 ->
        instanceId r = instances (snd (useSocketClient h p w))
        /\ instanceId r = instanceId (fst (useSocketClient h p w))).
Proof.
  split; [|split; [|split]].
  - intros r w Hne. unfold isAlive, rebindEffect, livenessEffect.
    rewrite !(bool_decide_eq_false_2 _ Hne).
    do 3 (split; [done|]). intros x q Hp Hc Hq Hd.
    unfold fire_timer. rewrite Hp. simpl.
    destruct (Z.leb_spec (due x) (now w)); [|lia].
    rewrite Hc. simpl. unfold isAlive.
    assert (E : instances (rearm x w) = instances w).
    { unfold rearm. rewrite Hq. reflexivity. }
    by rewrite E, (bool_decide_eq_false_2 _ Hne).
  - intros r h p w Hle. simpl. split; [done|lia].
  - intros r h p w He. simpl. lia.
  - intros r h p w He. simpl. by split.
Qed.

Lemma X14_instance_fence_witness :
  let r := Sample.r_connected in
  let w' := snd (useSocketClient 1 None Sample.w_connected) in
  isAlive r Sample.w_connected <> Sample.w_connected
  /\ isAlive r w' = w'
  /\ livenessEffect r w' = (None, w')
  /\ instanceId r = instances (unmountCleanup w')
  /\ isAlive r (unmountCleanup w') <> unmountCleanup w'.
Proof.
  intros r w'.
  destruct X14_instance_fence as (Ha & Hb & Hc & _).
  destruct (Hb Sample.r_connected 1%nat None Sample.w_connected)
    as [_ Hne];
    [vm_compute; discriminate|].
  destruct (Ha Sample.r_connected w' Hne) as (H1 & _ & H3 & _).
  pose proof (Hc Sample.r_connected 1%nat None Sample.w_connected eq_refl)
    as Hback.
  split; [|split; [exact H1|split; [exact H3|split; [exact Hback|]]]].
  - intros E. apply (f_equal frames_sent) in E. vm_compute in E.
    discriminate.
  - intros E. apply (f_equal frames_sent) in E. vm_compute in E.
    discriminate.
Defined.

(** X15. While the socket instance is open, the [close] event of another
    socket only marks that socket closed: status and timers are untouched.
    Its [error] event has no such guard: the status becomes
    [disconnected] and a retry is scheduled although the instance is still
    open, and when the retry fires [connect()] does nothing, so the status
    stays [disconnected] with the instance open. *)
Theorem X15_loss_of_a_superseded_socket w sid s :
  Inv w ->
  instance_readyState w = Some OPEN ->
  socketInstance w <> Some sid ->
  sockets w !! sid = Some s ->
  reconnectTimeoutRef w !! hook (handlers s) = None ->
  let t := next_timer w in
  deliver sid EvClose w = on_socket sid (with_readyState CLOSED) w
  /\ socketStatus (store (deliver sid EvClose w)) = socketStatus (store w)
  /\ tstate (deliver sid EvClose w) = tstate w
  /\ let w1 := deliver sid EvError w in
     socketStatus (store w1) = disconnected
     /\ instance_readyState w1 = Some OPEN
     /\ reconnectTimeoutRef w1 !! hook (handlers s) = Some t
     /\ exists w2,
         fire_timer t (elapse 5000 w1) = Some w2
         /\ sockets w2 = sockets w1
         /\ socketInstance w2 = socketInstance w
         /\ socketStatus (store w2) = disconnected
         /\ instance_readyState w2 = Some OPEN.
Proof.
  intros HI Ho Hne Hs Href t.
  assert (Hl : (sid < length (sockets w))%nat) by by eapply lookup_lt_Some.
  assert (Ho' : forall w0,
            socketInstance w0 = socketInstance w ->
            sockets w0 = <[sid := with_readyState CLOSED s]> (sockets w) ->
            instance_readyState w0 = Some OPEN).
  { intros w0 H1 H2. unfold instance_readyState in Ho |- *.
    rewrite H1, H2. destruct (socketInstance w) as [i|]; [|done].
    simpl in *. rewrite list_lookup_insert_ne by congruence. done. }
  assert (Ec : deliver sid EvClose w
               = on_socket sid (with_readyState CLOSED) w).
  { unfold deliver. rewrite Hs. unfold onclose, instance_open.
    rewrite (Ho' (on_socket sid (with_readyState CLOSED) w)).
    - by rewrite bool_decide_eq_true_2.
    - unfold on_socket. by rewrite Hs.
    - unfold on_socket. by rewrite Hs. }
  split; [exact Ec|]. rewrite Ec.
  split; [unfold on_socket; by rewrite Hs|].
  split; [apply tstate_on_socket|].
  set (T := {| tid := t; due := now w + 5000; period := None;
               callback := CbReconnect (handlers s) |}).
  assert (E1 : deliver sid EvError w
               = W.set_reconnectTimeoutRef
                   (<[hook (handlers s) := t]> (reconnectTimeoutRef w))
                   (W.set_next_timer (S t)
                      (W.set_timers (timers w ++ [T])
                         (setSocketStatus disconnected
                            (W.emit (ConsoleError "WebSocket error:")
                               (W.emit (Debug "Socket error, reconnecting")
                                  (W.set_sockets
                                     (<[sid := with_readyState CLOSED s]>
                                        (sockets w)) w))))))).
  { unfold deliver. rewrite Hs. unfold onerror, on_socket.
    rewrite Hs. unfold scheduleReconnect. wsimpl. rewrite Href.
    reflexivity. }
  cbv zeta. rewrite E1. wsimpl.
  split; [done|]. split; [by apply Ho'|].
  split; [by rewrite lookup_insert_eq|].
  unfold fire_timer, pending, elapse. wsimpl.
  rewrite find_app_r by apply (pending_fresh w HI).
  simpl. unfold is_timer at 1. simpl.
  rewrite bool_decide_eq_true_2 by done. simpl. rewrite Z.leb_refl.
  eexists. split; [reflexivity|].
  unfold connect. destruct (project (handlers s)).
  - unfold instance_open. rewrite Ho' by done.
    rewrite bool_decide_eq_true_2 by done. simpl.
    repeat split; try done. by apply Ho'.
  - simpl. repeat split; try done. by apply Ho'.
Qed.

Lemma X15_loss_of_a_superseded_socket_witness :
  deliver 0 EvClose w_two_sockets
  = on_socket 0 (with_readyState CLOSED) w_two_sockets
  /\ socketStatus (store (deliver 0 EvClose w_two_sockets))
     = connecting_python
  /\ socketStatus (store (deliver 0 EvError w_two_sockets)) = disconnected
  /\ instance_readyState (deliver 0 EvError w_two_sockets) = Some OPEN.
Proof.
  destruct (sockets w_two_sockets !! 0%nat) as [s|] eqn:Es;
    [|vm_compute in Es; discriminate].
  destruct (X15_loss_of_a_superseded_socket w_two_sockets 0 s)
    as (H1 & H2 & _ & H4 & H5 & _).
  - apply Inv_deliver. eapply Inv_ext; [apply tstate_connect|].
    eapply Inv_ext; [apply tstate_connect|].
    eapply Inv_ext; [|apply (Inv_init (Sample.store0 disconnected) 1000)].
    reflexivity.
  - reflexivity.
  - vm_compute. discriminate.
  - exact Es.
  - vm_compute in Es. injection Es as <-. reflexivity.
  - split; [exact H1|]. split; [by rewrite H2|]. by split.
Defined.

(** X16. After the rebind effect of the newest render, a message on the
    socket instance is dispatched by that render's [handleMessage]; every
    other socket keeps the handler it had, and nothing but the instance's
    [onmessage] has changed. *)
Theorem X16_rebind_routes_messages r w sid s msg :
  instanceId r = instances w ->
  socketInstance w = Some sid -> sockets w !! sid = Some s ->
  let w' := rebindEffect r w in
  deliver sid (EvMessage msg) w' = handleMessage r msg w'
  /\ (forall sid' s', sid' <> sid -> sockets w !! sid' = Some s' ->
        deliver sid' (EvMessage msg) w' = handleMessage (onmessage s') msg w')
  /\ w' = W.set_sockets (<[sid := with_onmessage r s]> (sockets w)) w.
Proof.
  intros Hf Hi Hs w'.
  assert (E : w' = W.set_sockets
                     (<[sid := with_onmessage r s]> (sockets w)) w).
  { subst w'. unfold rebindEffect. rewrite bool_decide_eq_true_2 by done.
    rewrite Hi. unfold on_socket. by rewrite Hs. }
  clearbody w'. subst w'. split; [|split; [|done]].
  - unfold deliver. simpl.
    rewrite list_lookup_insert_eq by by eapply lookup_lt_Some. done.
  - intros sid' s' Hne Hs'. unfold deliver. simpl.
    rewrite list_lookup_insert_ne by done. by rewrite Hs'.
Qed.

Lemma X16_rebind_routes_messages_witness :
  let r := Sample.r_connected in
  let w' := rebindEffect r (snd Sample.render_connected) in
  deliver 0 (EvMessage done_event) w' = handleMessage r done_event w'.
Proof.
  destruct (sockets (snd Sample.render_connected) !! 0%nat) as [s|] eqn:Es;
    [|vm_compute in Es; discriminate].
  apply (X16_rebind_routes_messages Sample.r_connected
           (snd Sample.render_connected) 0 s done_event).
  - reflexivity.
  - reflexivity.
  - exact Es.
Defined.

End Extras.
